(** * fosim-tools: trace files, filters, statistics and tables

    A shallow embedding of the Python package [fosim_tools]
    ([filter.py], [trace_file.py], [statistic.py], [table.py]) and the
    properties of its filters, its statistics and their cache.

    Conventions of the embedding.
    - The filters, the construction of a trace file, the cache and the
      table are embedded with exact numbers: a Python [float] is an exact
      rational or NaN ([float] below), so rounding, overflow, infinities
      and signed zeros of binary64 are outside this part.
    - The values of the statistics depend on the rounding: [statistic.py]
      and what it uses of the other files are embedded once more in the
      module [Binary64], with the binary64 floats of the code, and the
      properties of the values are stated there.
    - A pandas [DataFrame] is a list of column names and a list of rows, a
      row holding one cell per column.  Only the operations the package
      uses are modelled.
    - Exceptions are values of [exn]; a computation that may raise returns
      a [result].
    - Objects that are compared with [is] or that carry mutable fields
      live in a store and are named by a reference ([ref]). *)

From Stdlib Require Floats.
From Stdlib Require Import Ascii String QArith Qcanon.
From stdpp Require Import gmap strings list numbers.

Local Open Scope Z_scope.

(** ** Exceptions and results *)

Inductive exn :=
| ValueError (msg : string)
| KeyError (key : string)
| TypeError
| ZeroDivisionError
| IndexError
| AttributeError.

Inductive result (A : Type) :=
| Ok (a : A)
| Raise (e : exn).
Arguments Ok {A} a.
Arguments Raise {A} e.

Global Instance result_ret : MRet result := λ A a, Ok a.
Global Instance result_bind : MBind result := λ A B k r,
  match r with
  | Ok a => k a
  | Raise e => Raise e
  end.
Global Instance result_fmap : FMap result := λ A B f r,
  match r with
  | Ok a => Ok (f a)
  | Raise e => Raise e
  end.

(** [for x in l: acc = body(acc, x)], stopping at the first exception. *)
Fixpoint for_each {A B} (body : A → B → result A) (acc : A) (l : list B)
  : result A :=
  match l with
  | [] => Ok acc
  | x :: l' => acc' ← body acc x; for_each body acc' l'
  end.

(** Apply [f] to every element, stopping at the first exception. *)
Fixpoint map_result {A B} (f : A → result B) (l : list A) : result (list B) :=
  match l with
  | [] => Ok []
  | x :: l' => y ← f x; ys ← map_result f l'; Ok (y :: ys)
  end.

(** The two error kinds of the specification.  The package raises
    [ValueError] for both and tells them apart by the message. *)
Definition column_message (column : string) : string :=
  "Column " +:+ column +:+ " is not in the provided trace file.".
Definition range_message : string :=
  "Minimum is larger than maximum in range filter.".
Definition table_message : string :=
  "Statistics list and trace file list are not of equal length.".

Definition MissingColumn (column : string) : exn :=
  ValueError (column_message column).
Definition InvalidArgument (e : exn) : Prop :=
  e = ValueError range_message ∨ e = ValueError table_message.

(** ** Floats *)

Inductive float :=
| Finite (q : Qc)
| NaN.

Definition Z2Qc (n : Z) : Qc := Q2Qc (inject_Z n).

Definition is_nan (x : float) : bool :=
  match x with NaN => true | Finite _ => false end.

Definition float_op (op : Qc → Qc → Qc) (x y : float) : float :=
  match x, y with
  | Finite a, Finite b => Finite (op a b)
  | _, _ => NaN
  end.
Definition fadd : float → float → float := float_op Qcplus.
Definition fsub : float → float → float := float_op Qcminus.
Definition fmul : float → float → float := float_op Qcmult.

(** Every comparison with NaN is false. *)
Definition float_cmp (test : comparison → bool) (x y : float) : bool :=
  match x, y with
  | Finite a, Finite b => test (a ?= b)%Qc
  | _, _ => false
  end.
Definition flt : float → float → bool :=
  float_cmp (λ c, match c with Lt => true | _ => false end).
Definition fle : float → float → bool :=
  float_cmp (λ c, match c with Gt => false | _ => true end).
Definition fgt : float → float → bool :=
  float_cmp (λ c, match c with Gt => true | _ => false end).
Definition fge : float → float → bool :=
  float_cmp (λ c, match c with Lt => false | _ => true end).

(** [x / y].  Python raises [ZeroDivisionError] on a zero divisor; numpy
    scalars give an infinity or NaN instead, a value the exact model does
    not have, so every zero divisor is the raising case here. *)
Definition truediv (x y : float) : result float :=
  match x, y with
  | Finite a, Finite b =>
      if bool_decide (b = 0%Qc) then Raise ZeroDivisionError
      else Ok (Finite (a / b)%Qc)
  | _, _ => Ok NaN
  end.

Definition Qcmax (a b : Qc) : Qc :=
  match (a ?= b)%Qc with Lt => b | _ => a end.
Definition Qcmin (a b : Qc) : Qc :=
  match (a ?= b)%Qc with Gt => b | _ => a end.

(** ** Data frames *)

Inductive cell :=
| Float (x : float)
| Int (n : Z)
| Str (s : string).

(** pandas' missing value: NaN (an absent cell is stored as NaN too). *)
Definition isna (c : cell) : bool :=
  match c with Float NaN => true | _ => false end.

Record DataFrame := {
  columns : list string;
  rows : list (list cell)
}.

(** Position of the first column called [column]. *)
Fixpoint column_index (column : string) (names : list string) : option nat :=
  match names with
  | [] => None
  | name :: names' =>
      if bool_decide (name = column) then Some 0%nat
      else S <$> column_index column names'
  end.

(** [column in data_frame] *)
Definition has_column (column : string) (df : DataFrame) : bool :=
  bool_decide (column ∈ columns df).

Definition at_column (i : nat) (row : list cell) : cell :=
  default (Float NaN) (row !! i).

(** [data_frame[column]]: the cells of one column, in row order. *)
Definition getitem (df : DataFrame) (column : string) : result (list cell) :=
  match column_index column (columns df) with
  | Some i => Ok (at_column i <$> rows df)
  | None => Raise (KeyError column)
  end.

(** Keep the elements whose mask entry is [True]. *)
Fixpoint select {A} (mask : list bool) (l : list A) : list A :=
  match mask, l with
  | b :: mask', x :: l' => if b then x :: select mask' l' else select mask' l'
  | _, _ => []
  end.

(** [data_frame[mask]] for a boolean mask aligned with the rows. *)
Definition getitem_mask (df : DataFrame) (mask : list bool) : DataFrame :=
  {| columns := columns df; rows := select mask (rows df) |}.

(** The number a cell stands for in a numeric operation. *)
Definition to_number (c : cell) : result float :=
  match c with
  | Float x => Ok x
  | Int n => Ok (Finite (Z2Qc n))
  | Str _ => Raise TypeError
  end.

(** [series <op> bound], element by element. *)
Definition series_cmp (op : float → float → bool) (s : list cell)
  (bound : float) : result (list bool) :=
  map_result (λ c, x ← to_number c; Ok (op x bound)) s.

(** [a & b] on boolean series. *)
Definition series_and (a b : list bool) : list bool := zip_with andb a b.

(** [==] between two cells. *)
Definition cell_eqb (a b : cell) : bool :=
  match a, b with
  | Str s, Str t => bool_decide (s = t)
  | Str _, _ | _, Str _ => false
  | _, _ =>
      match to_number a, to_number b with
      | Ok (Finite x), Ok (Finite y) => bool_decide (x = y)
      | _, _ => false
      end
  end.

(** [series == value] *)
Definition series_eq (s : list cell) (v : cell) : list bool :=
  (λ c, cell_eqb c v) <$> s.

(** [series.unique()]: the distinct values in order of first appearance;
    missing values count as one value. *)
Definition same_value (a b : cell) : bool :=
  cell_eqb a b || (isna a && isna b).

Fixpoint unique_from (seen : list cell) (s : list cell) : list cell :=
  match s with
  | [] => []
  | c :: s' =>
      if existsb (same_value c) seen then unique_from seen s'
      else c :: unique_from (c :: seen) s'
  end.
Definition unique (s : list cell) : list cell := unique_from [] s.

(** The finite numbers of a series: [max]/[min] skip missing values. *)
Definition finite_values (l : list float) : list Qc :=
  omap (λ x, match x with Finite q => Some q | NaN => None end) l.

Definition reduce (op : Qc → Qc → Qc) (l : list Qc) : float :=
  match l with
  | [] => NaN
  | q :: l' => Finite (foldl op q l')
  end.

(** [series.max()] and [series.min()] *)
Definition series_max (s : list cell) : result float :=
  xs ← map_result to_number s; Ok (reduce Qcmax (finite_values xs)).
Definition series_min (s : list cell) : result float :=
  xs ← map_result to_number s; Ok (reduce Qcmin (finite_values xs)).

(** [data_frame.dropna()]: drop the rows that hold a missing value. *)
Definition dropna (df : DataFrame) : DataFrame :=
  {| columns := columns df;
     rows := List.filter (λ row, negb (existsb isna row)) (rows df) |}.

(** ** filter.py *)

Module Range.

Record t := {
  _column : string;
  _min : float;
  _max : float;
  _min_inclusive : bool;
  _max_inclusive : bool
}.

(** [Range(column, minimum, maximum, min_inclusive, max_inclusive)] *)
Definition __init__ (column : string) (minimum maximum : float)
  (min_inclusive max_inclusive : bool) : result t :=
  if fgt minimum maximum then Raise (ValueError range_message)
  else Ok {| _column := column; _min := minimum; _max := maximum;
             _min_inclusive := min_inclusive;
             _max_inclusive := max_inclusive |}.

(** The defaults of the signature: [min_inclusive=True],
    [max_inclusive=False]. *)
Definition default_init (column : string) (minimum maximum : float)
  : result t :=
  __init__ column minimum maximum true false.

Definition apply (self : t) (data_frame : DataFrame) : result DataFrame :=
  min_bool ←
    (if _min_inclusive self
     then s ← getitem data_frame (_column self); series_cmp fge s (_min self)
     else s ← getitem data_frame (_column self); series_cmp fgt s (_min self));
  max_bool ←
    (if _max_inclusive self
     then s ← getitem data_frame (_column self); series_cmp fle s (_max self)
     else s ← getitem data_frame (_column self); series_cmp flt s (_max self));
  Ok (getitem_mask data_frame (series_and min_bool max_bool)).

End Range.

Module Area.

Record t := {
  _area : float;
  _t_filter : Range.t;
  _pos_filter : Range.t
}.

(** [Area(min_t, max_t, min_pos, max_pos)] *)
Definition __init__ (min_t max_t min_pos max_pos : float) : result t :=
  let area := fmul (fsub max_t min_t) (fsub max_pos min_pos) in
  t_filter ← Range.__init__ "t (s)" min_t max_t true true;
  pos_filter ← Range.__init__ "pos (m)" min_pos max_pos true true;
  Ok {| _area := area; _t_filter := t_filter; _pos_filter := pos_filter |}.

Definition get_area (self : t) : float := _area self.

Definition apply (self : t) (data_frame : DataFrame) : result DataFrame :=
  by_t ← Range.apply (_t_filter self) data_frame;
  Range.apply (_pos_filter self) by_t.

End Area.

Module InSet.

Record t := {
  _column : string;
  _values : gset string
}.

Definition __init__ (column : string) (values : gset string) : t :=
  {| _column := column; _values := values |}.

(** [series.isin(values)] for a set of strings. *)
Definition isin (values : gset string) (s : list cell) : list bool :=
  (λ c, match c with Str v => bool_decide (v ∈ values) | _ => false end)
    <$> s.

Definition apply (self : t) (data_frame : DataFrame) : result DataFrame :=
  s ← getitem data_frame (_column self);
  Ok (getitem_mask data_frame (isin (_values self) s)).

End InSet.

Module Filter.

(** The concrete filters; [apply] dispatches on the class. *)
Inductive t :=
| Range (f : Range.t)
| Area (f : Area.t)
| InSet (f : InSet.t).

Definition apply (self : t) (data_frame : DataFrame) : result DataFrame :=
  match self with
  | Range f => Range.apply f data_frame
  | Area f => Area.apply f data_frame
  | InSet f => InSet.apply f data_frame
  end.

End Filter.

(** ** trace_file.py *)

(** *** The built-ins [int(value)] and [float(value)]

    Plain decimal literals, surrounded by optional white space: an optional
    sign, digits, and for [float] an optional fraction and exponent.  [None]
    as the result is the raised exception.  (Python also reads [nan], which
    the converter below maps to NaN either way, and [inf] and underscores
    between digits, which are not covered.) *)

Module Builtins.

Definition is_space (c : ascii) : bool :=
  bool_decide (c ∈ [" "; "009"; "010"; "011"; "012"; "013"]%char).

Fixpoint lstrip (l : list ascii) : list ascii :=
  match l with
  | c :: l' => if is_space c then lstrip l' else l
  | [] => []
  end.
Definition strip (l : list ascii) : list ascii :=
  rev (lstrip (rev (lstrip l))).

Definition digit (c : ascii) : option Z :=
  let n := Z.of_nat (nat_of_ascii c) in
  if (48 <=? n) && (n <=? 57) then Some (n - 48) else None.

Fixpoint digits_from (acc : Z) (l : list ascii) : option Z :=
  match l with
  | [] => Some acc
  | c :: l' => d ← digit c; digits_from (10 * acc + d) l'
  end.

(** One digit or more. *)
Definition digits (l : list ascii) : option Z :=
  match l with
  | [] => None
  | _ => digits_from 0 l
  end.

Definition signed (l : list ascii) : option Z :=
  match l with
  | "-"%char :: l' => Z.opp <$> digits l'
  | "+"%char :: l' => digits l'
  | _ => digits l
  end.

(** Cut [l] at the first character satisfying [p]. *)
Fixpoint cut (p : ascii → bool) (l : list ascii)
  : list ascii * option (list ascii) :=
  match l with
  | [] => ([], None)
  | c :: l' =>
      if p c then ([], Some l')
      else let '(a, b) := cut p l' in (c :: a, b)
  end.

Definition pow10 (e : Z) : Qc :=
  if 0 <=? e then Z2Qc (10 ^ e) else (/ Z2Qc (10 ^ (- e)))%Qc.

Definition mantissa (l : list ascii) : option (Z * Z) :=
  let '(whole, frac) := cut (λ c, bool_decide (c = "."%char)) l in
  let frac := default [] frac in
  match whole ++ frac with
  | [] => None
  | ds => m ← digits_from 0 ds; Some (m, Z.of_nat (length frac))
  end.

Definition unsigned_float (l : list ascii) : option Qc :=
  let '(m, e) := cut (λ c, bool_decide (c ∈ ["e"; "E"]%char)) l in
  '(n, scale) ← mantissa m;
  e ← match e with Some e => signed e | None => Some 0 end;
  Some (Z2Qc n * pow10 (e - scale))%Qc.

Definition int (value : option string) : option Z :=
  s ← value; signed (strip (list_ascii_of_string s)).

Definition float (value : option string) : option Qc :=
  s ← value;
  match strip (list_ascii_of_string s) with
  | "-"%char :: l => Qcopp <$> unsigned_float l
  | "+"%char :: l => unsigned_float l
  | l => unsigned_float l
  end.

End Builtins.

Module TraceFile.

(** A converter receives the text of a cell, or [None] for a cell that
    the line does not have. *)
Definition converter : Type := option string → result cell.

Definition _float_converter : converter := λ value,
  match Builtins.float value with
  | Some x => Ok (Float (Finite x))
  | None => Ok (Float NaN)
  end.

Definition _int_converter : converter := λ value,
  match Builtins.int value with
  | Some n => Ok (Int n)
  | None => Ok (Int (-1))
  end.

Definition _converters : gmap string converter :=
  list_to_map
    [ ("t (s)", _float_converter);
      ("fromln", _int_converter);
      ("tolane", _int_converter);
      ("from a", _float_converter);
      ("to a", _float_converter);
      ("pos (m)", _float_converter);
      ("v (m/s)", _float_converter);
      ("id", _int_converter);
      ("lane", _int_converter);
      ("tt (s)", _float_converter);
      ("dt (s)", _float_converter) ].

(** [types[int(value)]] for the vehicle types read from the .fos file. *)
Definition type_converter (types : gmap Z string) : converter := λ value,
  match value with
  | None => Raise TypeError
  | Some s =>
      match Builtins.int value with
      | None => Raise (ValueError s)
      | Some n =>
          match types !! n with
          | Some name => Ok (Str name)
          | None => Raise (KeyError s)
          end
      end
  end.

(** *** [pandas.read_csv]

    The file as [read_csv] sees it once it is cut into fields: the names
    of the header and the fields of each line.  A column with a converter
    has the converter applied to each of its cells, and an exception of a
    converter ends the load; in a column without one, an absent field or
    one of pandas' markers of a missing value is NaN and other text is
    kept as it is. *)
Record csv := {
  header : list string;
  lines : list (list string)
}.

Definition na_values : list string :=
  [ ""; "#N/A"; "#N/A N/A"; "#NA"; "-1.#IND"; "-1.#QNAN"; "-NaN"; "-nan";
    "1.#IND"; "1.#QNAN"; "<NA>"; "N/A"; "NA"; "NULL"; "NaN"; "None";
    "n/a"; "nan"; "null" ].

Definition infer : converter := λ value,
  match value with
  | None => Ok (Float NaN)
  | Some s => if bool_decide (s ∈ na_values) then Ok (Float NaN) else Ok (Str s)
  end.

Definition convert_line (converters : gmap string converter)
  (names : list string) (line : list string) : result (list cell) :=
  map_result
    (λ '(i, name), default infer (converters !! name) (line !! i))
    (imap pair names).

Definition read_csv (file : csv) (converters : gmap string converter)
  : result DataFrame :=
  rows ← map_result (convert_line converters (header file)) (lines file);
  Ok {| columns := header file; rows := rows |}.

(** *** The class *)

(** [_data_frame] is unset on the placeholder [TraceFile('')]. *)
Record t := {
  _data_frame : option DataFrame
}.

(** [TraceFile(filename, fos_file)].  [file] is [None] for the empty file
    name; [types] is the table of vehicle types the constructor reads from
    the .fos file, empty without one.  The converter of the column [type]
    is installed with the first vehicle type that is read. *)
Definition converters_for (types : gmap Z string) : gmap string converter :=
  if bool_decide (types = ∅) then _converters
  else <["type" := type_converter types]> _converters.

Definition __init__ (file : option csv) (types : gmap Z string) : result t :=
  let converters := converters_for types in
  match file with
  | Some file =>
      data_frame ← read_csv file converters;
      Ok {| _data_frame := Some (dropna data_frame) |}
  | None => Ok {| _data_frame := None |}
  end.

Definition get_data_frame (self : t) : result DataFrame :=
  match _data_frame self with
  | Some data_frame => Ok data_frame
  | None => Raise AttributeError
  end.

Definition filter (self : t) (filt : Filter.t) : result t :=
  out ← __init__ None ∅;
  data_frame ← get_data_frame self;
  filtered ← Filter.apply filt data_frame;
  Ok {| _data_frame := Some filtered |}.

End TraceFile.

(** ** Objects with state

    A [TraceFile] is compared by identity ([is]) and the [Total]
    statistics are mutated by [get_si], so both live in a store and are
    passed as references.  A trace file is never changed once it is in the
    store. *)

Abbreviation ref := nat.

(** Computations that read and write a state [S] and may raise; the state
    reached before an exception is kept. *)
Definition stateful (S A : Type) : Type := S → result A * S.

Global Instance stateful_ret {S} : MRet (stateful S) := λ A a s, (Ok a, s).
Global Instance stateful_bind {S} : MBind (stateful S) := λ A B k m s,
  match m s with
  | (Ok a, s') => k a s'
  | (Raise e, s') => (Raise e, s')
  end.

Definition lift {S A} (r : result A) : stateful S A := λ s, (r, s).
Definition get_state {S} : stateful S S := λ s, (Ok s, s).
Definition modify {S} (f : S → S) : stateful S () := λ s, (Ok (), f s).

(** Run a method on the object that [r] refers to. *)
Definition on_object {O A} (r : ref) (method : stateful O A)
  : stateful (gmap nat O) A := λ store,
  match store !! r with
  | Some self => let '(a, self') := method self in (a, <[r := self']> store)
  | None => (Raise AttributeError, store)
  end.

(** [l[i]] *)
Definition index {A} (l : list A) (i : nat) : result A :=
  match l !! i with
  | Some x => Ok x
  | None => Raise IndexError
  end.

(** Apply [f] to every element in order, threading the state. *)
Fixpoint map_stateful {S A B} (f : A → stateful S B) (l : list A)
  : stateful S (list B) :=
  match l with
  | [] => mret []
  | x :: l' => y ← f x; ys ← map_stateful f l'; mret (y :: ys)
  end.

(** A Python value that is a float or [None]. *)
Abbreviation object := (option float).

(** [x / y] and [x * y] on objects: [None] is not a number. *)
Definition div (x y : object) : result object :=
  match x, y with
  | Some a, Some b => Some <$> truediv a b
  | _, _ => Raise TypeError
  end.
Definition mul (x y : object) : result object :=
  match x, y with
  | Some a, Some b => Ok (Some (fmul a b))
  | _, _ => Raise TypeError
  end.

(** The literal [n.d] as a float object. *)
Definition literal (num : Z) (den : positive) : object :=
  Some (Finite (Q2Qc (num # den))).

(** *** CPython's int objects

    [len] returns an int object.  CPython holds one shared object for
    each int from -5 to 256 and makes a new object for any other value;
    [a is b] tells whether [a] and [b] are the same object. *)
Record int_object := {
  int_id : option nat;   (* [None]: the shared object of a small int *)
  int_value : Z
}.

Definition is_small_int (n : Z) : bool := (-5 <=? n) && (n <=? 256).

(** [len(l)], [fresh] being the identity of the object if one is made. *)
Definition len {A} (l : list A) (fresh : nat) : int_object :=
  let n := Z.of_nat (length l) in
  {| int_id := if is_small_int n then None else Some fresh; int_value := n |}.

Definition int_is (a b : int_object) : bool :=
  match int_id a, int_id b with
  | None, None => bool_decide (int_value a = int_value b)
  | Some i, Some j => bool_decide (i = j)
  | _, _ => false
  end.

(** ** statistic.py *)

(** [trace_file.get_data_frame()] through a reference.  A reference absent
    from the store does not arise in Python; it is given the outcome of an
    object without the attribute. *)
Definition data_frame_of (trace_files : gmap nat TraceFile.t)
  (trace_file : ref) : result DataFrame :=
  match trace_files !! trace_file with
  | Some tf => TraceFile.get_data_frame tf
  | None => Raise AttributeError
  end.

(** [Statistic._check_column] *)
Definition _check_column (trace_files : gmap nat TraceFile.t)
  (column : string) (trace_file : ref) : result () :=
  data_frame ← data_frame_of trace_files trace_file;
  if negb (has_column column data_frame) then Raise (MissingColumn column)
  else Ok ().

Module Total.

Record t := {
  _column : string;
  _value : object;
  _trace_file : option ref
}.

Definition __init__ (column : string) : t :=
  {| _column := column; _value := None; _trace_file := None |}.

Definition set_value (value : object) (self : t) : t :=
  {| _column := _column self; _value := value;
     _trace_file := _trace_file self |}.
Definition set_trace_file (trace_file : option ref) (self : t) : t :=
  {| _column := _column self; _value := _value self;
     _trace_file := trace_file |}.

(** The body of the loop over [ids]. *)
Definition add_vehicle (data_frame : DataFrame) (column : string)
  (value : float) (vehicle_id : cell) : result float :=
  id_column ← getitem data_frame "id";
  let id_data := getitem_mask data_frame (series_eq id_column vehicle_id) in
  s ← getitem id_data column;
  high ← series_max s;
  s ← getitem id_data column;
  low ← series_min s;
  Ok (fsub (fadd value high) low).

(** The computation inside [if trace_file is not self._trace_file]. *)
Definition compute (data_frame : DataFrame) (column : string)
  : result float :=
  id_column ← getitem data_frame "id";
  let ids := unique id_column in
  for_each (add_vehicle data_frame column) (Finite 0%Qc) ids.

Definition get_si (trace_files : gmap nat TraceFile.t) (trace_file : ref)
  : stateful t object :=
  self ← get_state;
  _ ← lift (_check_column trace_files (_column self) trace_file);
  _ ← lift (_check_column trace_files "id" trace_file);
  _ ← (if bool_decide (Some trace_file ≠ _trace_file self) then
         data_frame ← lift (data_frame_of trace_files trace_file);
         value ← lift (compute data_frame (_column self));
         _ ← modify (set_value (Some value));
         modify (set_trace_file (Some trace_file))
       else mret ());
  self ← get_state;
  mret (_value self).

End Total.

Module Statistic.

(** The statistics.  A [Total] statistic is a reference to its object in
    the store of [Total] objects; the composed statistics hold the
    statistics they were constructed with. *)
Inductive t :=
| TotalTimeSpent (self : ref)
| TotalDistanceTraveled (self : ref)
| MeanSpeed (_total_time_spent _total_distance_traveled : t)
| Density (_statistic : t) (_area : Area.t)
| Flow (_statistic : t) (_area : Area.t)
| NumberOfLaneChanges.

(** [TotalTimeSpent()] and [TotalDistanceTraveled()] make a new object. *)
Definition new_Total (column : string) : stateful (gmap nat Total.t) ref :=
  λ store,
    let r := fresh (dom store) in
    (Ok r, <[r := Total.__init__ column]> store).
Definition TotalTimeSpent_init : stateful (gmap nat Total.t) t :=
  r ← new_Total "t (s)"; mret (TotalTimeSpent r).
Definition TotalDistanceTraveled_init : stateful (gmap nat Total.t) t :=
  r ← new_Total "pos (m)"; mret (TotalDistanceTraveled r).

Definition get_label (self : t) : string :=
  match self with
  | TotalTimeSpent _ => "Total time spent"
  | TotalDistanceTraveled _ => "Total distance traveled"
  | MeanSpeed _ _ => "Mean speed"
  | Density _ _ => "Density"
  | Flow _ _ => "Flow"
  | NumberOfLaneChanges => "Number of lane changes"
  end.

Definition get_unit (self : t) : string :=
  match self with
  | TotalTimeSpent _ => "h"
  | TotalDistanceTraveled _ => "km"
  | MeanSpeed _ _ => "km/h"
  | Density _ _ => "/km"
  | Flow _ _ => "/h"
  | NumberOfLaneChanges => "-"
  end.

Definition get_unit_si (self : t) : string :=
  match self with
  | TotalTimeSpent _ => "s"
  | TotalDistanceTraveled _ => "m"
  | MeanSpeed _ _ => "m/s"
  | Density _ _ => "/m"
  | Flow _ _ => "/s"
  | NumberOfLaneChanges => "-"
  end.

(** [NumberOfLaneChanges.get]; the count is an int, kept as the number
    it is. *)
Definition count_rows (trace_files : gmap nat TraceFile.t)
  (trace_file : ref) : result object :=
  _ ← _check_column trace_files "fromln" trace_file;
  _ ← _check_column trace_files "tolane" trace_file;
  data_frame ← data_frame_of trace_files trace_file;
  Ok (Some (Finite (Z2Qc (Z.of_nat (length (rows data_frame)))))).

Fixpoint get_si (trace_files : gmap nat TraceFile.t) (self : t)
  (trace_file : ref) : stateful (gmap nat Total.t) object :=
  match self with
  | TotalTimeSpent r | TotalDistanceTraveled r =>
      on_object r (Total.get_si trace_files trace_file)
  | MeanSpeed total_time_spent total_distance_traveled =>
      distance ← get_si trace_files total_distance_traveled trace_file;
      time ← get_si trace_files total_time_spent trace_file;
      lift (div distance time)
  | Density statistic area | Flow statistic area =>
      value ← get_si trace_files statistic trace_file;
      lift (div value (Some (Area.get_area area)))
  | NumberOfLaneChanges => lift (count_rows trace_files trace_file)
  end.

Definition get (trace_files : gmap nat TraceFile.t) (self : t)
  (trace_file : ref) : stateful (gmap nat Total.t) object :=
  match self with
  | TotalTimeSpent _ =>
      value ← get_si trace_files self trace_file;
      lift (div value (literal 3600 1))
  | TotalDistanceTraveled _ =>
      value ← get_si trace_files self trace_file;
      lift (div value (literal 1000 1))
  | MeanSpeed _ _ =>
      value ← get_si trace_files self trace_file;
      lift (mul value (literal 36 10))
  | Density _ _ =>
      value ← get_si trace_files self trace_file;
      lift (mul value (literal 1000 1))
  | Flow _ _ =>
      value ← get_si trace_files self trace_file;
      lift (mul value (literal 3600 1))
  | NumberOfLaneChanges => lift (count_rows trace_files trace_file)
  end.

End Statistic.

(** ** table.py *)

Module Table.

(** [_data_frame]: one row per statistic, under the columns [''],
    ['Value'] and ['Unit']. *)
Record t := {
  _data_frame : DataFrame
}.

Definition value_cell (value : object) : cell :=
  match value with
  | Some x => Float x
  | None => Float NaN
  end.

(** One pass of the loop: the label, the value and the unit of
    [statistics[i]] on [trace_files[i]]. *)
Definition entry (heap : gmap nat TraceFile.t)
  (statistics : list Statistic.t) (trace_files : list ref) (i : nat)
  : stateful (gmap nat Total.t) (string * object * string) :=
  statistic ← lift (index statistics i);
  let label := Statistic.get_label statistic in
  statistic ← lift (index statistics i);
  trace_file ← lift (index trace_files i);
  value ← Statistic.get heap statistic trace_file;
  statistic ← lift (index statistics i);
  let unit := Statistic.get_unit statistic in
  mret (label, value, unit).

Definition __init__ (heap : gmap nat TraceFile.t)
  (statistics : list Statistic.t) (trace_files : list ref)
  : stateful (gmap nat Total.t) t :=
  if negb (int_is (len statistics 0) (len trace_files 1)) then
    lift (Raise (ValueError table_message))
  else
    entries ← map_stateful (entry heap statistics trace_files)
                (seq 0 (length statistics));
    mret {| _data_frame :=
              {| columns := [""; "Value"; "Unit"];
                 rows := (λ '(label, value, unit),
                           [Str label; value_cell value; Str unit])
                         <$> entries |} |}.

Definition as_data_frame (self : t) : DataFrame := _data_frame self.

End Table.

(** * Notions used in the statements *)

Global Instance float_eq_dec : EqDecision float.
Proof. solve_decision. Defined.
Global Instance cell_eq_dec : EqDecision cell.
Proof. solve_decision. Defined.
Global Instance exn_eq_dec : EqDecision exn.
Proof. solve_decision. Defined.

(** The order of the floats: NaN is not related to anything. *)
Definition float_lt (x y : float) : Prop :=
  match x, y with
  | Finite a, Finite b => (a < b)%Qc
  | _, _ => False
  end.
Definition float_le (x y : float) : Prop :=
  match x, y with
  | Finite a, Finite b => (a ≤ b)%Qc
  | _, _ => False
  end.

Global Instance float_lt_dec x y : Decision (float_lt x y).
Proof. destruct x, y; simpl; apply _. Defined.
Global Instance float_le_dec x y : Decision (float_le x y).
Proof. destruct x, y; simpl; apply _. Defined.

(** ** Range filters *)

(** A number lies in the range [minimum .. maximum] with the given
    inclusivity of each bound. *)
Definition within (minimum maximum : float) (min_inclusive max_inclusive : bool)
  (x : float) : Prop :=
  (if min_inclusive then float_le minimum x else float_lt minimum x)
  ∧ (if max_inclusive then float_le x maximum else float_lt x maximum).

Global Instance within_dec a b i j x : Decision (within a b i j x).
Proof. unfold within. destruct i, j; apply _. Defined.

(** The cell of a row under the column called [column]. *)
Definition cell_of (df : DataFrame) (column : string) (row : list cell) : cell :=
  match column_index column (columns df) with
  | Some i => at_column i row
  | None => Float NaN
  end.

(** The cell is a number within the range. *)
Definition cell_within (a b : float) (i j : bool) (c : cell) : Prop :=
  match to_number c with
  | Ok x => within a b i j x
  | Raise _ => False
  end.

Global Instance cell_within_dec a b i j c : Decision (cell_within a b i j c).
Proof. unfold cell_within. destruct (to_number c); apply _. Defined.

Definition is_number (c : cell) : bool :=
  match c with Str _ => false | _ => true end.

(** The number of a cell that is not text. *)
Definition number_of (c : cell) : float :=
  match c with
  | Float x => x
  | Int n => Finite (Z2Qc n)
  | Str _ => NaN
  end.

(** Every cell of the column is a number or NaN. *)
Definition numeric_column (df : DataFrame) (column : string) : bool :=
  forallb (λ row, is_number (cell_of df column row)) (rows df).

(** The cell is a text of the set. *)
Definition cell_in (values : gset string) (c : cell) : Prop :=
  match c with
  | Str v => v ∈ values
  | _ => False
  end.

Global Instance cell_in_dec values c : Decision (cell_in values c).
Proof. destruct c; simpl; apply _. Defined.

(** The column a filter reads first. *)
Definition first_column (f : Filter.t) : string :=
  match f with
  | Filter.Range r => Range._column r
  | Filter.Area a => Range._column (Area._t_filter a)
  | Filter.InSet s => InSet._column s
  end.

(** ** The sum of the Total statistics, following the specification *)

(** The samples of a data frame for the column [column]: per row the
    vehicle id and the value, where the id is an int and the value a finite
    number. *)
Definition sample (df : DataFrame) (column : string) (row : list cell)
  : option (Z * Qc) :=
  match cell_of df "id" row, to_number (cell_of df column row) with
  | Int v, Ok (Finite x) => Some (v, x)
  | _, _ => None
  end.
Definition samples (df : DataFrame) (column : string) : option (list (Z * Qc)) :=
  mapM (sample df column) (rows df).

(** The values a vehicle has in the column. *)
Definition values_of (v : Z) (l : list (Z * Qc)) : list Qc :=
  (filter (λ p, p.1 = v) l).*2.

Definition maximum (l : list Qc) : Qc := foldr Qcmax (hd 0%Qc l) l.
Definition minimum (l : list Qc) : Qc := foldr Qcmin (hd 0%Qc l) l.

(** [m] is the greatest, or the least, element of [l]. *)
Definition greatest (l : list Qc) (m : Qc) : Prop :=
  m ∈ l ∧ ∀ x, x ∈ l → (x ≤ m)%Qc.
Definition least (l : list Qc) (m : Qc) : Prop :=
  m ∈ l ∧ ∀ x, x ∈ l → (m ≤ x)%Qc.

Definition sum (l : list Qc) : Qc := foldr Qcplus 0%Qc l.

(** The sum, over the distinct vehicle ids, of the maximum minus the
    minimum of the vehicle's values. *)
Definition total (l : list (Z * Qc)) : Qc :=
  sum ((λ v, maximum (values_of v l) - minimum (values_of v l))%Qc
         <$> elements (list_to_set l.*1 : gset Z)).

(** ** The cache of a Total statistic *)

(** [get_si] without a cache: the checks and the computation. *)
Definition uncached (heap : gmap nat TraceFile.t) (column : string)
  (trace_file : ref) : result float :=
  _ ← _check_column heap column trace_file;
  _ ← _check_column heap "id" trace_file;
  data_frame ← data_frame_of heap trace_file;
  Total.compute data_frame column.

(** The cached value, if there is one, is the value of the computation on
    the trace file it was cached for. *)
Definition cache_ok (heap : gmap nat TraceFile.t) (self : Total.t) : bool :=
  match Total._trace_file self with
  | None => true
  | Some r =>
      match uncached heap (Total._column self) r with
      | Ok v => bool_decide (Total._value self = Some v)
      | Raise _ => false
      end
  end.

Definition store_ok (heap : gmap nat TraceFile.t) (store : gmap nat Total.t)
  : Prop :=
  ∀ r self, store !! r = Some self → cache_ok heap self = true.

(** The Total objects a statistic refers to exist and have the column of
    their class. *)
Fixpoint typed (store : gmap nat Total.t) (s : Statistic.t) : Prop :=
  match s with
  | Statistic.TotalTimeSpent r =>
      ∃ self, store !! r = Some self ∧ Total._column self = "t (s)"
  | Statistic.TotalDistanceTraveled r =>
      ∃ self, store !! r = Some self ∧ Total._column self = "pos (m)"
  | Statistic.MeanSpeed a b => typed store a ∧ typed store b
  | Statistic.Density a _ | Statistic.Flow a _ => typed store a
  | Statistic.NumberOfLaneChanges => True
  end.

(** The column of a Total statistic. *)
Definition total_column (s : Statistic.t) : option string :=
  match s with
  | Statistic.TotalTimeSpent _ => Some "t (s)"
  | Statistic.TotalDistanceTraveled _ => Some "pos (m)"
  | _ => None
  end.

(** The value of a statistic without any cache. *)
Fixpoint value_si (heap : gmap nat TraceFile.t) (s : Statistic.t)
  (trace_file : ref) : result object :=
  match s with
  | Statistic.TotalTimeSpent _ => Some <$> uncached heap "t (s)" trace_file
  | Statistic.TotalDistanceTraveled _ =>
      Some <$> uncached heap "pos (m)" trace_file
  | Statistic.MeanSpeed a b =>
      distance ← value_si heap b trace_file;
      time ← value_si heap a trace_file;
      div distance time
  | Statistic.Density a area | Statistic.Flow a area =>
      value ← value_si heap a trace_file;
      div value (Some (Area.get_area area))
  | Statistic.NumberOfLaneChanges => Statistic.count_rows heap trace_file
  end.

(** ** An example: two vehicles

    Vehicle 1 is seen at the times 0, 1, 2, 3 at the positions 0, 10, 20,
    30, and vehicle 2 at the times 1, 2 at the positions 5, 15. *)
Definition two_vehicles : DataFrame :=
  {| columns := ["id"; "t (s)"; "pos (m)"];
     rows :=
       [ [Int 1; Float (Finite (Z2Qc 0)); Float (Finite (Z2Qc 0))];
         [Int 1; Float (Finite (Z2Qc 1)); Float (Finite (Z2Qc 10))];
         [Int 2; Float (Finite (Z2Qc 1)); Float (Finite (Z2Qc 5))];
         [Int 1; Float (Finite (Z2Qc 2)); Float (Finite (Z2Qc 20))];
         [Int 2; Float (Finite (Z2Qc 2)); Float (Finite (Z2Qc 15))];
         [Int 1; Float (Finite (Z2Qc 3)); Float (Finite (Z2Qc 30))] ] |}.

(** The trace file of the example at the reference 0, the same data at
    the reference 1, and a trace file without rows at the reference 2. *)
Definition example_heap : gmap nat TraceFile.t :=
  <[0%nat := {| TraceFile._data_frame := Some two_vehicles |}]>
  (<[1%nat := {| TraceFile._data_frame := Some two_vehicles |}]>
   {[ 2%nat := {| TraceFile._data_frame :=
                    Some {| columns := ["id"; "t (s)"; "pos (m)"];
                            rows := [] |} |} ]}).

(** A new TotalTimeSpent at the reference 0 and a new
    TotalDistanceTraveled at the reference 1. *)
Definition example_store : gmap nat Total.t :=
  <[0%nat := Total.__init__ "t (s)"]> {[ 1%nat := Total.__init__ "pos (m)" ]}.

(** * The package in binary64

    The definitions above compute with exact rationals.  The results of
    the statistics depend on the rounding of the floats, so [statistic.py]
    and what it reads of a trace file are embedded here once more, with
    Rocq's primitive floats, which are the binary64 floats of the code.
    A data frame is a list of named columns, each of one dtype as in
    pandas.  A number is a Python float or a numpy float64: they divide
    differently by zero. *)

Module Binary64.

Abbreviation float := PrimFloat.float.

(** The float nearest to an int, ties to even: the conversion of Python
    and of numpy. *)
Definition of_Z (n : Z) : float :=
  FloatOps.SF2Prim
    (SpecFloat.binary_normalize FloatOps.prec FloatOps.emax n 0 false).

Inductive number :=
| PyFloat (x : float)
| NpFloat (x : float).

Definition to_float (a : number) : float :=
  match a with
  | PyFloat x | NpFloat x => x
  end.

Definition is_numpy (a : number) : bool :=
  match a with NpFloat _ => true | _ => false end.

(** The result of an operation on floats is a numpy float64 when one of
    the operands is. *)
Definition pack (a b : number) (x : float) : number :=
  if is_numpy a || is_numpy b then NpFloat x else PyFloat x.

Definition add (a b : number) : number :=
  pack a b (PrimFloat.add (to_float a) (to_float b)).
Definition sub (a b : number) : number :=
  pack a b (PrimFloat.sub (to_float a) (to_float b)).
Definition mul (a b : number) : number :=
  pack a b (PrimFloat.mul (to_float a) (to_float b)).

(** [a / b]: Python raises [ZeroDivisionError] on a zero divisor, numpy
    returns an infinity or NaN. *)
Definition truediv (a b : number) : result number :=
  if negb (is_numpy a || is_numpy b)
     && PrimFloat.eqb (to_float b) PrimFloat.zero
  then Raise ZeroDivisionError
  else Ok (pack a b (PrimFloat.div (to_float a) (to_float b))).

(** A number or [None]; [None] is no operand. *)
Definition div (x y : option number) : result (option number) :=
  match x, y with
  | Some a, Some b => Some <$> truediv a b
  | _, _ => Raise TypeError
  end.
Definition times (x y : option number) : result (option number) :=
  match x, y with
  | Some a, Some b => Ok (Some (mul a b))
  | _, _ => Raise TypeError
  end.

(** ** Data frames *)

(** A column has one dtype: float64, int64 or object (text, [None] for a
    missing value). *)
Inductive column :=
| FloatColumn (l : list float)
| IntColumn (l : list Z)
| ObjectColumn (l : list (option string)).

Record DataFrame := {
  data : list (string * column)
}.

Definition columns (df : DataFrame) : list string := (data df).*1.

(** [column in data_frame] *)
Definition has_column (name : string) (df : DataFrame) : bool :=
  bool_decide (name ∈ columns df).

Fixpoint lookup_column (name : string) (l : list (string * column))
  : option column :=
  match l with
  | [] => None
  | (n, c) :: l' => if bool_decide (n = name) then Some c
                    else lookup_column name l'
  end.

(** [data_frame[name]] *)
Definition getitem (df : DataFrame) (name : string) : result column :=
  match lookup_column name (data df) with
  | Some c => Ok c
  | None => Raise (KeyError name)
  end.

Definition select_column (mask : list bool) (c : column) : column :=
  match c with
  | FloatColumn l => FloatColumn (select mask l)
  | IntColumn l => IntColumn (select mask l)
  | ObjectColumn l => ObjectColumn (select mask l)
  end.

(** [data_frame[mask]] *)
Definition getitem_mask (df : DataFrame) (mask : list bool) : DataFrame :=
  {| data := (λ '(n, c), (n, select_column mask c)) <$> data df |}.

Definition column_length (c : column) : nat :=
  match c with
  | FloatColumn l => length l
  | IntColumn l => length l
  | ObjectColumn l => length l
  end.

(** [len(data_frame.index)] *)
Definition row_count (df : DataFrame) : nat :=
  match data df with
  | [] => 0%nat
  | (_, c) :: _ => column_length c
  end.

(** The missing values of a column. *)
Definition isna (c : column) : list bool :=
  match c with
  | FloatColumn l => PrimFloat.is_nan <$> l
  | IntColumn l => (λ _, false) <$> l
  | ObjectColumn l => (λ o, bool_decide (o = None)) <$> l
  end.

(** [data_frame.dropna()]: a row is kept when no column has a missing
    value in it. *)
Definition dropna (df : DataFrame) : DataFrame :=
  getitem_mask df
    ((λ k, forallb (λ '(_, c), negb (default false (isna c !! k))) (data df))
       <$> seq 0 (row_count df)).

(** An element of a column. *)
Inductive scalar :=
| SFloat (x : float)
| SInt (n : Z)
| SObject (o : option string).

(** The elements seen first, in their order. *)
Fixpoint first_from {A} (same : A → A → bool) (seen l : list A) : list A :=
  match l with
  | [] => []
  | x :: l' =>
      if existsb (same x) seen then first_from same seen l'
      else x :: first_from same (x :: seen) l'
  end.

Definition same_float (a b : float) : bool :=
  PrimFloat.eqb a b || (PrimFloat.is_nan a && PrimFloat.is_nan b).

(** [series.unique()] *)
Definition unique (c : column) : list scalar :=
  match c with
  | FloatColumn l => SFloat <$> first_from same_float [] l
  | IntColumn l => SInt <$> first_from Z.eqb [] l
  | ObjectColumn l =>
      SObject <$> first_from (λ a b, bool_decide (a = b)) [] l
  end.

(** [series == value] *)
Definition series_eq (c : column) (v : scalar) : list bool :=
  match c, v with
  | FloatColumn l, SFloat x => (λ y, PrimFloat.eqb y x) <$> l
  | IntColumn l, SInt n => (λ m, Z.eqb m n) <$> l
  | ObjectColumn l, SObject (Some s) => (λ o, bool_decide (o = Some s)) <$> l
  | _, _ => (λ _, false) <$> seq 0 (column_length c)
  end.

Definition fmax (a b : float) : float := if PrimFloat.ltb a b then b else a.
Definition fmin (a b : float) : float := if PrimFloat.ltb b a then b else a.

Definition reduce (op : float → float → float) (l : list float) : float :=
  match l with
  | [] => PrimFloat.nan
  | x :: l' => foldl op x l'
  end.

Definition without_nan (l : list float) : list float :=
  List.filter (λ x, negb (PrimFloat.is_nan x)) l.

(** [series.max()] and [series.min()] as operands of the sum: missing
    values are skipped, an int is converted, text is no operand. *)
Definition series_max (c : column) : result number :=
  match c with
  | FloatColumn l => Ok (NpFloat (reduce fmax (without_nan l)))
  | IntColumn l => Ok (NpFloat (reduce fmax (of_Z <$> l)))
  | ObjectColumn l =>
      if forallb (λ o, bool_decide (o = None)) l
      then Ok (NpFloat PrimFloat.nan) else Raise TypeError
  end.
Definition series_min (c : column) : result number :=
  match c with
  | FloatColumn l => Ok (NpFloat (reduce fmin (without_nan l)))
  | IntColumn l => Ok (NpFloat (reduce fmin (of_Z <$> l)))
  | ObjectColumn l =>
      if forallb (λ o, bool_decide (o = None)) l
      then Ok (NpFloat PrimFloat.nan) else Raise TypeError
  end.

(** ** filter.py *)

(** [series <op> bound] for a float bound: ints are converted, text is
    not comparable. *)
Definition series_cmp (test : float → bool) (c : column) : result (list bool) :=
  match c with
  | FloatColumn l => Ok (test <$> l)
  | IntColumn l => Ok ((λ n, test (of_Z n)) <$> l)
  | ObjectColumn [] => Ok []
  | ObjectColumn _ => Raise TypeError
  end.

Module Range.

Record t := {
  _column : string;
  _min : float;
  _max : float;
  _min_inclusive : bool;
  _max_inclusive : bool
}.

Definition __init__ (column : string) (minimum maximum : float)
  (min_inclusive max_inclusive : bool) : result t :=
  if PrimFloat.ltb maximum minimum then Raise (ValueError range_message)
  else Ok {| _column := column; _min := minimum; _max := maximum;
             _min_inclusive := min_inclusive;
             _max_inclusive := max_inclusive |}.

Definition apply (self : t) (data_frame : DataFrame) : result DataFrame :=
  min_bool ←
    (if _min_inclusive self
     then s ← getitem data_frame (_column self);
          series_cmp (λ x, PrimFloat.leb (_min self) x) s
     else s ← getitem data_frame (_column self);
          series_cmp (λ x, PrimFloat.ltb (_min self) x) s);
  max_bool ←
    (if _max_inclusive self
     then s ← getitem data_frame (_column self);
          series_cmp (λ x, PrimFloat.leb x (_max self)) s
     else s ← getitem data_frame (_column self);
          series_cmp (λ x, PrimFloat.ltb x (_max self)) s);
  Ok (getitem_mask data_frame (series_and min_bool max_bool)).

End Range.

Module Area.

Record t := {
  _area : float;
  _t_filter : Range.t;
  _pos_filter : Range.t
}.

Definition __init__ (min_t max_t min_pos max_pos : float) : result t :=
  let area :=
    PrimFloat.mul (PrimFloat.sub max_t min_t) (PrimFloat.sub max_pos min_pos)
  in
  t_filter ← Range.__init__ "t (s)" min_t max_t true true;
  pos_filter ← Range.__init__ "pos (m)" min_pos max_pos true true;
  Ok {| _area := area; _t_filter := t_filter; _pos_filter := pos_filter |}.

Definition get_area (self : t) : float := _area self.

Definition apply (self : t) (data_frame : DataFrame) : result DataFrame :=
  by_t ← Range.apply (_t_filter self) data_frame;
  Range.apply (_pos_filter self) by_t.

End Area.

Module InSet.

Record t := {
  _column : string;
  _values : gset string
}.

Definition __init__ (column : string) (values : gset string) : t :=
  {| _column := column; _values := values |}.

(** [series.isin(values)] for a set of strings. *)
Definition isin (values : gset string) (c : column) : list bool :=
  match c with
  | ObjectColumn l =>
      (λ o, match o with Some v => bool_decide (v ∈ values) | None => false end)
        <$> l
  | FloatColumn l => (λ _, false) <$> l
  | IntColumn l => (λ _, false) <$> l
  end.

Definition apply (self : t) (data_frame : DataFrame) : result DataFrame :=
  s ← getitem data_frame (_column self);
  Ok (getitem_mask data_frame (isin (_values self) s)).

End InSet.

Module Filter.

Inductive t :=
| Range (f : Range.t)
| Area (f : Area.t)
| InSet (f : InSet.t).

Definition apply (self : t) (data_frame : DataFrame) : result DataFrame :=
  match self with
  | Range f => Range.apply f data_frame
  | Area f => Area.apply f data_frame
  | InSet f => InSet.apply f data_frame
  end.

End Filter.

(** ** trace_file.py *)

Module TraceFile.

Record t := {
  _data_frame : option DataFrame
}.

Definition get_data_frame (self : t) : result DataFrame :=
  match _data_frame self with
  | Some data_frame => Ok data_frame
  | None => Raise AttributeError
  end.

(** A converter, with the type of what it returns. *)
Inductive converter :=
| Floats (f : option string → result float)
| Ints (f : option string → result Z)
| Texts (f : option string → result string).

Record csv := {
  header : list string;
  lines : list (list string)
}.

Section Builtins.

(** Python's [float(value)] and [int(value)], [None] when they raise, and
    the column pandas makes of the cells of a column without converter. *)
Context (py_float : option string → option float).
Context (py_int : option string → option Z).
Context (infer : list (option string) → column).

Definition _float_converter (value : option string) : result float :=
  match py_float value with
  | Some x => Ok x
  | None => Ok PrimFloat.nan
  end.

Definition _int_converter (value : option string) : result Z :=
  match py_int value with
  | Some n => Ok n
  | None => Ok (-1)
  end.

Definition _converters : gmap string converter :=
  list_to_map
    [ ("t (s)", Floats _float_converter);
      ("fromln", Ints _int_converter);
      ("tolane", Ints _int_converter);
      ("from a", Floats _float_converter);
      ("to a", Floats _float_converter);
      ("pos (m)", Floats _float_converter);
      ("v (m/s)", Floats _float_converter);
      ("id", Ints _int_converter);
      ("lane", Ints _int_converter);
      ("tt (s)", Floats _float_converter);
      ("dt (s)", Floats _float_converter) ].

(** [types[int(value)]] *)
Definition type_converter (types : gmap Z string) (value : option string)
  : result string :=
  match value with
  | None => Raise TypeError
  | Some s =>
      match py_int value with
      | None => Raise (ValueError s)
      | Some n =>
          match types !! n with
          | Some name => Ok name
          | None => Raise (KeyError s)
          end
      end
  end.

Definition converters_for (types : gmap Z string) : gmap string converter :=
  if bool_decide (types = ∅) then _converters
  else <["type" := Texts (type_converter types)]> _converters.

(** The column [read_csv] makes of the cells of one column: the values of
    the converter; text that is one of pandas' markers of a missing value
    is a missing value. *)
Definition convert (c : option converter) (cells : list (option string))
  : result column :=
  match c with
  | Some (Floats f) => FloatColumn <$> map_result f cells
  | Some (Ints f) => IntColumn <$> map_result f cells
  | Some (Texts f) =>
      (λ l, ObjectColumn
              ((λ s, if bool_decide (s ∈ TraceFile.na_values) then None
                     else Some s) <$> l))
        <$> map_result f cells
  | None => Ok (infer cells)
  end.

Definition read_csv (file : csv) (converters : gmap string converter)
  : result DataFrame :=
  cols ← map_result
            (λ '(i, name),
               c ← convert (converters !! name)
                     ((λ line, line !! i) <$> lines file);
               Ok (name, c))
            (imap pair (header file));
  Ok {| data := cols |}.

(** [TraceFile(filename, fos_file)] *)
Definition __init__ (file : option csv) (types : gmap Z string) : result t :=
  let converters := converters_for types in
  match file with
  | Some file =>
      data_frame ← read_csv file converters;
      Ok {| _data_frame := Some (dropna data_frame) |}
  | None => Ok {| _data_frame := None |}
  end.

End Builtins.

Definition filter (self : t) (filt : Filter.t) : result t :=
  data_frame ← get_data_frame self;
  filtered ← Filter.apply filt data_frame;
  Ok {| _data_frame := Some filtered |}.

End TraceFile.

(** ** statistic.py *)

Definition data_frame_of (trace_files : gmap nat TraceFile.t)
  (trace_file : ref) : result DataFrame :=
  match trace_files !! trace_file with
  | Some tf => TraceFile.get_data_frame tf
  | None => Raise AttributeError
  end.

(** [Statistic._check_column] *)
Definition _check_column (trace_files : gmap nat TraceFile.t)
  (column : string) (trace_file : ref) : result () :=
  data_frame ← data_frame_of trace_files trace_file;
  if negb (has_column column data_frame) then Raise (MissingColumn column)
  else Ok ().

Module Total.

Record t := {
  _column : string;
  _value : option number;
  _trace_file : option ref
}.

Definition __init__ (column : string) : t :=
  {| _column := column; _value := None; _trace_file := None |}.

Definition set_value (value : option number) (self : t) : t :=
  {| _column := _column self; _value := value;
     _trace_file := _trace_file self |}.
Definition set_trace_file (trace_file : option ref) (self : t) : t :=
  {| _column := _column self; _value := _value self;
     _trace_file := trace_file |}.

(** The body of the loop over [ids]. *)
Definition add_vehicle (data_frame : DataFrame) (column : string)
  (value : number) (vehicle_id : scalar) : result number :=
  id_column ← getitem data_frame "id";
  let id_data := getitem_mask data_frame (series_eq id_column vehicle_id) in
  s ← getitem id_data column;
  high ← series_max s;
  s ← getitem id_data column;
  low ← series_min s;
  Ok (sub (add value high) low).

(** The computation inside [if trace_file is not self._trace_file]. *)
Definition compute (data_frame : DataFrame) (column : string)
  : result number :=
  id_column ← getitem data_frame "id";
  let ids := unique id_column in
  for_each (add_vehicle data_frame column) (PyFloat PrimFloat.zero) ids.

Definition get_si (trace_files : gmap nat TraceFile.t) (trace_file : ref)
  : stateful t (option number) :=
  self ← get_state;
  _ ← lift (_check_column trace_files (_column self) trace_file);
  _ ← lift (_check_column trace_files "id" trace_file);
  _ ← (if bool_decide (Some trace_file ≠ _trace_file self) then
         data_frame ← lift (data_frame_of trace_files trace_file);
         value ← lift (compute data_frame (_column self));
         _ ← modify (set_value (Some value));
         modify (set_trace_file (Some trace_file))
       else mret ());
  self ← get_state;
  mret (_value self).

End Total.

Module Statistic.

(** The statistics, with the Total objects that the constructors of
    MeanSpeed, Density and Flow take. *)
Inductive t :=
| TotalTimeSpent (self : ref)
| TotalDistanceTraveled (self : ref)
| MeanSpeed (_total_time_spent _total_distance_traveled : ref)
| Density (_statistic : ref) (_area : Area.t)
| Flow (_statistic : ref) (_area : Area.t)
| NumberOfLaneChanges.

(** What a statistic returns: the float or the [None] of a Total or of a
    quotient, or the int of [len]. *)
Inductive value :=
| FloatValue (v : option number)
| IntValue (n : Z).

(** [NumberOfLaneChanges.get] *)
Definition count_rows (trace_files : gmap nat TraceFile.t)
  (trace_file : ref) : result Z :=
  _ ← _check_column trace_files "fromln" trace_file;
  _ ← _check_column trace_files "tolane" trace_file;
  data_frame ← data_frame_of trace_files trace_file;
  Ok (Z.of_nat (row_count data_frame)).

(** [MeanSpeed.get_si] *)
Definition MeanSpeed_get_si (trace_files : gmap nat TraceFile.t)
  (total_time_spent total_distance_traveled : ref) (trace_file : ref)
  : stateful (gmap nat Total.t) (option number) :=
  distance ← on_object total_distance_traveled
                (Total.get_si trace_files trace_file);
  time ← on_object total_time_spent (Total.get_si trace_files trace_file);
  lift (div distance time).

(** [PerArea.get_si] *)
Definition PerArea_get_si (trace_files : gmap nat TraceFile.t)
  (statistic : ref) (area : Area.t) (trace_file : ref)
  : stateful (gmap nat Total.t) (option number) :=
  value ← on_object statistic (Total.get_si trace_files trace_file);
  lift (div value (Some (PyFloat (Area.get_area area)))).

Definition get_si (trace_files : gmap nat TraceFile.t) (self : t)
  (trace_file : ref) : stateful (gmap nat Total.t) value :=
  match self with
  | TotalTimeSpent r | TotalDistanceTraveled r =>
      value ← on_object r (Total.get_si trace_files trace_file);
      mret (FloatValue value)
  | MeanSpeed total_time_spent total_distance_traveled =>
      value ← MeanSpeed_get_si trace_files total_time_spent
                 total_distance_traveled trace_file;
      mret (FloatValue value)
  | Density statistic area | Flow statistic area =>
      value ← PerArea_get_si trace_files statistic area trace_file;
      mret (FloatValue value)
  | NumberOfLaneChanges =>
      n ← lift (count_rows trace_files trace_file);
      mret (IntValue n)
  end.

(** The literals [3600.0], [1000.0] and [3.6]. *)
Definition f3600 : option number := Some (PyFloat (of_Z 3600)).
Definition f1000 : option number := Some (PyFloat (of_Z 1000)).
Definition f3_6 : option number :=
  Some (PyFloat (PrimFloat.div (of_Z 36) (of_Z 10))).

Definition get (trace_files : gmap nat TraceFile.t) (self : t)
  (trace_file : ref) : stateful (gmap nat Total.t) value :=
  match self with
  | TotalTimeSpent r =>
      value ← on_object r (Total.get_si trace_files trace_file);
      value ← lift (div value f3600);
      mret (FloatValue value)
  | TotalDistanceTraveled r =>
      value ← on_object r (Total.get_si trace_files trace_file);
      value ← lift (div value f1000);
      mret (FloatValue value)
  | MeanSpeed total_time_spent total_distance_traveled =>
      value ← MeanSpeed_get_si trace_files total_time_spent
                 total_distance_traveled trace_file;
      value ← lift (times value f3_6);
      mret (FloatValue value)
  | Density statistic area =>
      value ← PerArea_get_si trace_files statistic area trace_file;
      value ← lift (times value f1000);
      mret (FloatValue value)
  | Flow statistic area =>
      value ← PerArea_get_si trace_files statistic area trace_file;
      value ← lift (times value f3600);
      mret (FloatValue value)
  | NumberOfLaneChanges =>
      n ← lift (count_rows trace_files trace_file);
      mret (IntValue n)
  end.

End Statistic.

(** ** Notions used in the statements *)

(** The values of the vehicle [v]: those of the rows with the id [v]. *)
Definition values_of (v : Z) (ids : list Z) (xs : list float) : list float :=
  (filter (λ p, p.1 = v) (zip ids xs)).*2.

(** The greatest and the least of floats, in the order of the floats. *)
Definition greatest (l : list float) (m : float) : Prop :=
  m ∈ l ∧ ∀ x, x ∈ l → PrimFloat.leb x m = true.
Definition least (l : list float) (m : float) : Prop :=
  m ∈ l ∧ ∀ x, x ∈ l → PrimFloat.leb m x = true.




(** [get_si] without a cache. *)
Definition uncached (heap : gmap nat TraceFile.t) (column : string)
  (trace_file : ref) : result number :=
  _ ← _check_column heap column trace_file;
  _ ← _check_column heap "id" trace_file;
  data_frame ← data_frame_of heap trace_file;
  Total.compute data_frame column.

(** The cached value, if there is one, is the value of the computation on
    the trace file it was cached for. *)
Definition cache_ok (heap : gmap nat TraceFile.t) (self : Total.t) : Prop :=
  ∀ r, Total._trace_file self = Some r →
       ∃ v, uncached heap (Total._column self) r = Ok v
            ∧ Total._value self = Some v.

(** The trace files that the package makes: read from a file, or
    filtered from one of these. *)
Inductive made (py_float : option string → option float)
  (py_int : option string → option Z)
  (infer : list (option string) → column) : TraceFile.t → Prop :=
| made_init file types tf :
    TraceFile.__init__ py_float py_int infer (Some file) types = Ok tf →
    made py_float py_int infer tf
| made_filter tf filt out :
    made py_float py_int infer tf →
    TraceFile.filter tf filt = Ok out →
    made py_float py_int infer out.

(** A float of the kind of [a]: an operation of [a] with a Python float
    returns a numpy float64 when [a] is one. *)
Definition like (a : number) (x : float) : number :=
  match a with
  | PyFloat _ => PyFloat x
  | NpFloat _ => NpFloat x
  end.

(** [get] from the value of [get_si], by class: the value divided by
    3600.0 or 1000.0, or multiplied by 3.6, 1000.0 or 3600.0, or the value
    itself. *)
Definition in_unit (s : Statistic.t) (v : Statistic.value)
  : Statistic.value :=
  match v with
  | Statistic.FloatValue (Some a) =>
      let x := to_float a in
      Statistic.FloatValue
        (Some
           (like a
              match s with
              | Statistic.TotalTimeSpent _ => PrimFloat.div x (of_Z 3600)
              | Statistic.TotalDistanceTraveled _ =>
                  PrimFloat.div x (of_Z 1000)
              | Statistic.MeanSpeed _ _ =>
                  PrimFloat.mul x (PrimFloat.div (of_Z 36) (of_Z 10))
              | Statistic.Density _ _ => PrimFloat.mul x (of_Z 1000)
              | Statistic.Flow _ _ => PrimFloat.mul x (of_Z 3600)
              | Statistic.NumberOfLaneChanges => x
              end))
  | _ => v
  end.



(** ** Example data *)

(** [int(value)] and [float(value)] on the cells of the two files below,
    which hold no other cells; they have no column without converter. *)
Definition cell_int (value : option string) : option Z :=
  match value with
  | Some "0" => Some 0
  | Some "1" => Some 1
  | Some "2" => Some 2
  | Some "3" => Some 3
  | Some "10000000000000000" => Some (10 ^ 16)
  | _ => None
  end.
Definition cell_float (value : option string) : option float :=
  of_Z <$> cell_int value.
Definition as_text (cells : list (option string)) : column :=
  ObjectColumn cells.


(** A file with one vehicle, from 0 s to 3 s. *)
Definition short_file : TraceFile.csv :=
  {| TraceFile.header := ["id"; "t (s)"];
     TraceFile.lines := [ ["1"; "0"]; ["1"; "3"] ] |}.

Definition long_ids : list Z := [1; 1; 2; 2].
Definition long_times : list float :=
  [of_Z 0; of_Z (10 ^ 16); of_Z 1; of_Z 3].

Definition long_trace_file : TraceFile.t :=
  {| TraceFile._data_frame :=
       Some {| data := [ ("id", IntColumn long_ids);
                         ("t (s)", FloatColumn long_times) ] |} |}.
Definition short_trace_file : TraceFile.t :=
  {| TraceFile._data_frame :=
       Some {| data := [ ("id", IntColumn [1; 1]);
                         ("t (s)", FloatColumn [of_Z 0; of_Z 3]) ] |} |}.

(** The trace files of the two files at the references 0 and 1, and a new
    TotalTimeSpent at the reference 0. *)
Definition read_heap : gmap nat TraceFile.t :=
  <[0%nat := long_trace_file]> {[ 1%nat := short_trace_file ]}.
Definition new_store : gmap nat Total.t := {[ 0%nat := Total.__init__ "t (s)" ]}.

End Binary64.

(** * Properties *)

(** ** Floats *)

Section Floats.

Local Open Scope Qc_scope.

Lemma flt_spec x y : flt x y = true ↔ float_lt x y.
Proof.
  destruct x as [a|], y as [b|]; simpl; try (split; [discriminate | tauto]).
  rewrite Qclt_alt. destruct (a ?= b); split; congruence.
Qed.

Lemma fgt_spec x y : fgt x y = true ↔ float_lt y x.
Proof.
  destruct x as [a|], y as [b|]; simpl; try (split; [discriminate | tauto]).
  rewrite (Qcgt_alt a b). destruct (a ?= b); split; congruence.
Qed.

Lemma fle_spec x y : fle x y = true ↔ float_le x y.
Proof.
  destruct x as [a|], y as [b|]; simpl; try (split; [discriminate | tauto]).
  rewrite Qcle_alt. destruct (a ?= b); split; congruence.
Qed.

Lemma fge_spec x y : fge x y = true ↔ float_le y x.
Proof.
  destruct x as [a|], y as [b|]; simpl; try (split; [discriminate | tauto]).
  rewrite (Qcge_alt a b). destruct (a ?= b); split; congruence.
Qed.

Lemma float_le_not_gt x y : float_le x y → ¬ float_lt y x.
Proof.
  destruct x as [a|], y as [b|]; simpl; try tauto.
  intros Hle Hlt. exact (Qclt_not_le _ _ Hlt Hle).
Qed.

Lemma fgt_false_of_le x y : float_le x y → fgt x y = false.
Proof.
  intros Hle. destruct (fgt x y) eqn:E; [|done].
  apply fgt_spec in E. by apply float_le_not_gt in Hle.
Qed.

End Floats.

(** ** Range and Area *)

Section Filters.

Lemma Range_init_ok column a b i j :
  fgt a b = false →
  Range.__init__ column a b i j
  = Ok {| Range._column := column; Range._min := a; Range._max := b;
          Range._min_inclusive := i; Range._max_inclusive := j |}.
Proof. intros H. unfold Range.__init__. by rewrite H. Qed.

Lemma Range_init_raise column a b i j :
  fgt a b = true →
  Range.__init__ column a b i j = Raise (ValueError range_message).
Proof. intros H. unfold Range.__init__. by rewrite H. Qed.

(** C8.  [Range(column, a, b, ...)] raises the error of an invalid
    argument exactly when [a > b]; whenever [a <= b] it returns the range
    with the given fields. *)
Theorem Range_init_invalid_iff column a b i j :
  ((∃ e, Range.__init__ column a b i j = Raise e) ↔ float_lt b a)
  ∧ (∀ e, Range.__init__ column a b i j = Raise e →
          e = ValueError range_message ∧ InvalidArgument e)
  ∧ (float_le a b →
     Range.__init__ column a b i j
     = Ok {| Range._column := column; Range._min := a; Range._max := b;
             Range._min_inclusive := i; Range._max_inclusive := j |}).
Proof.
  split_and!.
  - rewrite <- fgt_spec. unfold Range.__init__.
    destruct (fgt a b); split; eauto; [intros [e ?] | intros ?]; done.
  - unfold Range.__init__, InvalidArgument.
    destruct (fgt a b); intros e [= <-]. auto.
  - intros Hle. by apply Range_init_ok, fgt_false_of_le.
Qed.

(** C5, as the code has it.  [Area(min_t, max_t, min_pos, max_pos)]
    raises the error of an invalid argument exactly when [min_t > max_t]
    or [min_pos > max_pos], through the ranges it constructs; otherwise
    it succeeds and [get_area] is
    [(max_t - min_t) * (max_pos - min_pos)]. *)
Theorem Area_init_checks_ranges min_t max_t min_pos max_pos :
  (float_lt max_t min_t ∨ float_lt max_pos min_pos →
   Area.__init__ min_t max_t min_pos max_pos
   = Raise (ValueError range_message)
   ∧ InvalidArgument (ValueError range_message))
  ∧ (¬ (float_lt max_t min_t ∨ float_lt max_pos min_pos) →
     ∃ area, Area.__init__ min_t max_t min_pos max_pos = Ok area
       ∧ Area.get_area area
         = fmul (fsub max_t min_t) (fsub max_pos min_pos)).
Proof.
  rewrite <- !fgt_spec. unfold Area.__init__. split.
  - intros H. split; [|by left]. unfold Range.__init__.
    destruct (fgt min_t max_t); [done|].
    destruct H as [H|H]; [done|]. by rewrite H.
  - intros H.
    destruct (fgt min_t max_t) eqn:Et; [tauto|].
    destruct (fgt min_pos max_pos) eqn:Ep; [tauto|].
    rewrite !Range_init_ok by done. simpl. eauto.
Qed.

End Filters.

(** [Area(1, 0, 0, 1)], a box inverted on the time axis, is not
    constructed: the range of its time filter raises. *)
Lemma Area_init_inverted_raises :
  Area.__init__ (Finite 1%Qc) (Finite 0%Qc) (Finite 0%Qc) (Finite 1%Qc)
  = Raise (ValueError range_message).
Proof. reflexivity. Qed.

(** [Area(0, 10, 0, 100)] is constructed. *)
Lemma Area_init_checks_ranges_witness :
  ∃ area,
    Area.__init__ (Finite 0%Qc) (Finite (Z2Qc 10)) (Finite 0%Qc)
      (Finite (Z2Qc 100)) = Ok area
    ∧ Area.get_area area
      = fmul (fsub (Finite (Z2Qc 10)) (Finite 0%Qc))
          (fsub (Finite (Z2Qc 100)) (Finite 0%Qc)).
Proof.
  apply (proj2 (Area_init_checks_ranges (Finite 0%Qc) (Finite (Z2Qc 10))
                  (Finite 0%Qc) (Finite (Z2Qc 100)))).
  apply (bool_decide_unpack _). vm_compute. exact I.
Defined.

(** ** Data frames *)

Section DataFrames.

Lemma column_index_elem column names :
  column ∈ names → ∃ i, column_index column names = Some i.
Proof.
  induction names as [|name names IH]; [by intros ?%elem_of_nil|].
  intros [->|Hin]%elem_of_cons; simpl.
  - rewrite bool_decide_eq_true_2 by done. eauto.
  - case_bool_decide; [eauto|]. destruct (IH Hin) as [i ->]. simpl. eauto.
Qed.

Lemma column_index_None column names :
  column ∉ names → column_index column names = None.
Proof.
  induction names as [|name names IH]; [done|].
  intros [Hne Hnot]%not_elem_of_cons. simpl.
  rewrite bool_decide_eq_false_2 by done. by rewrite IH.
Qed.

Lemma has_column_index column df :
  has_column column df = true →
  ∃ i, column_index column (columns df) = Some i.
Proof. intros H%bool_decide_eq_true. by apply column_index_elem. Qed.

Lemma getitem_has_column column df :
  has_column column df = true →
  getitem df column = Ok (cell_of df column <$> rows df).
Proof.
  intros [i Hi]%has_column_index. unfold getitem, cell_of. by rewrite Hi.
Qed.

Lemma map_result_ok {A B} (f : A → result B) (g : A → B) l :
  Forall (λ x, f x = Ok (g x)) l → map_result f l = Ok (g <$> l).
Proof. induction 1 as [|x l Hx _ IH]; simpl; [done|]. by rewrite Hx, IH. Qed.

Lemma select_fmap {A} (p : A → bool) l :
  select (p <$> l) l = filter (λ x, p x = true) l.
Proof.
  induction l as [|x l IH]; csimpl; [done|].
  rewrite filter_cons, IH. destruct (p x); by case_decide.
Qed.

Lemma filter_iff_elem {A} (P Q : A → Prop) `{!∀ x, Decision (P x)}
  `{!∀ x, Decision (Q x)} (l : list A) :
  (∀ x, x ∈ l → P x ↔ Q x) → filter P l = filter Q l.
Proof.
  induction l as [|x l IH]; intros Hiff; [done|].
  rewrite !filter_cons, IH by (intros y Hy; apply Hiff; by right).
  pose proof (Hiff x ltac:(by left)). repeat case_decide; tauto || done.
Qed.

Lemma select_fmap_fmap {A B} (f : A → B) (p : B → bool) l :
  select (p <$> (f <$> l)) l = filter (λ x, p (f x) = true) l.
Proof. rewrite <- list_fmap_compose. apply (select_fmap (p ∘ f)). Qed.

Lemma series_and_fmap {A} (p q : A → bool) (l : list A) :
  series_and (p <$> l) (q <$> l) = (λ x, p x && q x) <$> l.
Proof. induction l as [|x l IH]; csimpl; [done|]. by rewrite <- IH. Qed.

Lemma to_number_is_number c : is_number c = true → to_number c = Ok (number_of c).
Proof. by destruct c. Qed.

Lemma series_cmp_numeric op s bound :
  forallb is_number s = true →
  series_cmp op s bound = Ok ((λ c, op (number_of c) bound) <$> s).
Proof.
  intros H. apply map_result_ok, Forall_forall. intros c Hc.
  rewrite forallb_forall in H. rewrite to_number_is_number; [reflexivity|].
  apply H. first [exact Hc | by apply list_elem_of_In].
Qed.

End DataFrames.

Section RangeApply.

Lemma numeric_column_forallb df column :
  numeric_column df column = true →
  forallb is_number (cell_of df column <$> rows df) = true.
Proof.
  unfold numeric_column. generalize (rows df). intros l.
  induction l as [|r l IH]; simpl; [done|].
  intros [-> H]%andb_true_iff. simpl. auto.
Qed.

Lemma cell_within_test a b (i j : bool) c :
  is_number c = true →
  (if i then fge (number_of c) a else fgt (number_of c) a)
  && (if j then fle (number_of c) b else flt (number_of c) b) = true
  ↔ cell_within a b i j c.
Proof.
  intros Hc. unfold cell_within, within. rewrite to_number_is_number by done.
  rewrite andb_true_iff.
  destruct i, j; rewrite ?fge_spec, ?fgt_spec, ?fle_spec, ?flt_spec; done.
Qed.

(** C4.  For a range with [a <= b], whatever the inclusivity of its
    bounds, and a data frame holding the column, with numbers in it,
    [apply] returns the data frame with the same columns whose rows are
    exactly the rows with a value in the range, in their original order. *)
Theorem Range_apply_exact column a b i j df :
  float_le a b →
  has_column column df = true →
  numeric_column df column = true →
  ∃ r out,
    Range.__init__ column a b i j = Ok r
    ∧ Range.apply r df = Ok out
    ∧ columns out = columns df
    ∧ rows out
      = filter (λ row, cell_within a b i j (cell_of df column row)) (rows df)
    ∧ sublist (rows out) (rows df).
Proof.
  intros Hle Hcol Hnum.
  eexists _, _. split; [by apply Range_init_ok, fgt_false_of_le|].
  pose proof (numeric_column_forallb _ _ Hnum) as Hall.
  assert (Range.apply
            {| Range._column := column; Range._min := a; Range._max := b;
               Range._min_inclusive := i; Range._max_inclusive := j |} df
          = Ok {| columns := columns df;
                  rows := filter (λ row, cell_within a b i j
                                           (cell_of df column row)) (rows df) |})
    as ->.
  { unfold Range.apply; simpl. rewrite getitem_has_column by done.
    assert (∀ (op1 op2 : float → float → bool) (c : bool),
      (if c then s ← Ok (cell_of df column <$> rows df); series_cmp op1 s a
       else s ← Ok (cell_of df column <$> rows df); series_cmp op2 s a)
      = Ok ((λ cl, (if c then op1 else op2) (number_of cl) a)
              <$> (cell_of df column <$> rows df))) as Hmin.
    { intros op1 op2 []; simpl; by rewrite series_cmp_numeric. }
    assert (∀ (op1 op2 : float → float → bool) (c : bool),
      (if c then s ← Ok (cell_of df column <$> rows df); series_cmp op1 s b
       else s ← Ok (cell_of df column <$> rows df); series_cmp op2 s b)
      = Ok ((λ cl, (if c then op1 else op2) (number_of cl) b)
              <$> (cell_of df column <$> rows df))) as Hmax.
    { intros op1 op2 []; simpl; by rewrite series_cmp_numeric. }
    rewrite Hmin, Hmax. simpl. unfold getitem_mask. do 2 f_equal.
    rewrite series_and_fmap, select_fmap_fmap.
    apply filter_iff_elem. intros row Hrow.
    rewrite <- cell_within_test.
    - by destruct i, j.
    - rewrite forallb_forall in Hall. apply Hall, list_elem_of_In.
      by apply list_elem_of_fmap_2. }
  split_and!; simpl; try done. apply sublist_filter.
Qed.

End RangeApply.

(** ** Construction of a trace file *)

Section Construction.

Lemma List_filter_stdpp {A} (p : A → bool) (l : list A) :
  List.filter p l = filter (λ x, p x = true) l.
Proof.
  induction l as [|x l IH]; simpl; [done|].
  rewrite filter_cons, IH. destruct (p x); by case_decide.
Qed.

Lemma no_missing_iff (row : list cell) :
  negb (existsb isna row) = true ↔ Forall (λ c, isna c = false) row.
Proof.
  induction row as [|c row IH]; simpl; [by split|].
  destruct (isna c) eqn:E; simpl; split.
  - done.
  - inversion 1; congruence.
  - intros Hrow. constructor; [done|]. by apply IH.
  - inversion 1. by apply IH.
Qed.

Lemma dropna_rows df :
  rows (dropna df)
  = filter (λ row, Forall (λ c, isna c = false) row) (rows df).
Proof.
  unfold dropna; simpl. rewrite List_filter_stdpp.
  apply list_filter_iff. intros row. apply no_missing_iff.
Qed.

Lemma map_result_lookup {A B} (f : A → result B) l ys i x :
  map_result f l = Ok ys → l !! i = Some x →
  ∃ y, ys !! i = Some y ∧ f x = Ok y.
Proof.
  revert ys i. induction l as [|a l IH]; intros ys i Hmap Hi; [done|].
  simpl in Hmap. destruct (f a) as [b|] eqn:Ea; [|done]. simpl in Hmap.
  destruct (map_result f l) as [bs|] eqn:El; [|done]. simpl in Hmap.
  injection Hmap as <-. destruct i as [|i]; simpl in *.
  - injection Hi as <-. eauto.
  - eauto.
Qed.

Lemma converters_for_other types name :
  name ≠ "type" →
  TraceFile.converters_for types !! name = TraceFile._converters !! name.
Proof.
  intros Hne. unfold TraceFile.converters_for. case_bool_decide; [done|].
  by rewrite lookup_insert_ne.
Qed.

Lemma converters_type : TraceFile._converters !! "type" = None.
Proof. reflexivity. Qed.

(** A cell of a float column that [float] cannot read makes the row of its
    line a row with a missing value. *)
Lemma failed_float_missing types names line i name row :
  names !! i = Some name →
  TraceFile._converters !! name = Some TraceFile._float_converter →
  Builtins.float (line !! i) = None →
  TraceFile.convert_line (TraceFile.converters_for types) names line = Ok row →
  ¬ Forall (λ c, isna c = false) row.
Proof.
  intros Hname Hconv Hfail Hrow Hall.
  assert (name ≠ "type") as Hne.
  { intros ->. rewrite converters_type in Hconv. discriminate. }
  unfold TraceFile.convert_line in Hrow.
  destruct (map_result_lookup _ _ _ i (i, name) Hrow) as (c & Hc & Hf).
  { by rewrite list_lookup_imap, Hname. }
  simpl in Hf. rewrite converters_for_other, Hconv in Hf by done.
  simpl in Hf. unfold TraceFile._float_converter in Hf.
  rewrite Hfail in Hf. injection Hf as <-.
  rewrite Forall_lookup in Hall. by specialize (Hall _ _ Hc).
Qed.

(** C3, as the code has it.  The data frame of a trace file constructed
    from a file holds exactly the converted rows without a missing value,
    so no row of it holds NaN; the row of a line is among those left out
    when a cell of one of its float columns cannot be read.  A cell of an
    int column that cannot be read becomes -1, which is not a missing
    value. *)
Theorem TraceFile_init_drops_missing file types tf :
  TraceFile.__init__ (Some file) types = Ok tf →
  ∃ raw df,
    TraceFile.read_csv file (TraceFile.converters_for types) = Ok raw
    ∧ TraceFile._data_frame tf = Some df
    ∧ columns df = TraceFile.header file
    ∧ rows df = filter (λ row, Forall (λ c, isna c = false) row) (rows raw)
    ∧ Forall (Forall (λ c, isna c = false)) (rows df)
    ∧ (∀ line i name row,
         TraceFile.header file !! i = Some name →
         TraceFile._converters !! name = Some TraceFile._float_converter →
         Builtins.float (line !! i) = None →
         TraceFile.convert_line (TraceFile.converters_for types)
           (TraceFile.header file) line = Ok row →
         row ∉ rows df)
    ∧ (∀ value, Builtins.int value = None →
         TraceFile._int_converter value = Ok (Int (-1))
         ∧ isna (Int (-1)) = false).
Proof.
  unfold TraceFile.__init__. intros Hinit.
  destruct (TraceFile.read_csv file _) as [raw|] eqn:Hraw; [|done].
  simpl in Hinit. injection Hinit as <-.
  exists raw, (dropna raw).
  assert (columns raw = TraceFile.header file) as Hcols.
  { unfold TraceFile.read_csv in Hraw.
    destruct (map_result _ _); [|done]. by injection Hraw as <-. }
  split_and!; try done.
  - apply dropna_rows.
  - rewrite dropna_rows. apply Forall_forall.
    by intros row [? _]%list_elem_of_In%list_elem_of_filter.
  - intros line i name row Hname Hconv Hfail Hrow Hin.
    rewrite dropna_rows in Hin. apply list_elem_of_filter in Hin as [Hall _].
    by eapply failed_float_missing.
  - intros value Hfail. unfold TraceFile._int_converter. by rewrite Hfail.
Qed.

End Construction.

(** The id [abc] cannot be read as an int; its row stays in the data
    frame, with the id -1. *)
Lemma TraceFile_init_keeps_unreadable_int :
  Builtins.int (Some "abc") = None
  ∧ TraceFile.__init__
      (Some {| TraceFile.header := ["id"; "type"];
               TraceFile.lines := [["1"; "car"]; ["abc"; "truck"]] |}) ∅
    = Ok {| TraceFile._data_frame :=
              Some {| columns := ["id"; "type"];
                      rows := [[Int 1; Str "car"];
                               [Int (-1); Str "truck"]] |} |}.
Proof. split; reflexivity. Qed.

(** A file with a time that cannot be read, an id that cannot be read and
    a line that is short: the first and the last of these lines are
    dropped. *)
Lemma TraceFile_init_drops_missing_witness :
  ∃ df,
    TraceFile._data_frame
      {| TraceFile._data_frame :=
           Some {| columns := ["id"; "t (s)"; "type"];
                   rows := [[Int (-1); Float (Finite (Z2Qc 2)); Str "car"]] |} |}
    = Some df
    ∧ Forall (Forall (λ c, isna c = false)) (rows df).
Proof.
  destruct (TraceFile_init_drops_missing
              {| TraceFile.header := ["id"; "t (s)"; "type"];
                 TraceFile.lines := [["1"; "x"; "car"]; ["abc"; "2"; "car"];
                                     ["3"; "4"]] |}
              ∅
              {| TraceFile._data_frame :=
                   Some {| columns := ["id"; "t (s)"; "type"];
                           rows := [[Int (-1); Float (Finite (Z2Qc 2));
                                     Str "car"]] |} |})
    as (raw & df & _ & Hdf & _ & _ & Hall & _).
  - vm_compute. reflexivity.
  - exists df. split; [exact Hdf | exact Hall].
Defined.

(** [Range('t (s)', 15, 18)] with its default inclusivity, on times 14,
    15, 17 and 18. *)
Lemma Range_apply_exact_witness :
  ∃ r out,
    Range.__init__ "t (s)" (Finite (Z2Qc 15)) (Finite (Z2Qc 18)) true false
    = Ok r
    ∧ Range.apply r
        {| columns := ["id"; "t (s)"];
           rows := [[Int 1; Float (Finite (Z2Qc 14))];
                    [Int 1; Float (Finite (Z2Qc 15))];
                    [Int 2; Float (Finite (Z2Qc 17))];
                    [Int 2; Float (Finite (Z2Qc 18))]] |} = Ok out
    ∧ columns out = ["id"; "t (s)"]
    ∧ rows out = [[Int 1; Float (Finite (Z2Qc 15))];
                  [Int 2; Float (Finite (Z2Qc 17))]].
Proof.
  destruct (Range_apply_exact "t (s)" (Finite (Z2Qc 15)) (Finite (Z2Qc 18))
              true false
              {| columns := ["id"; "t (s)"];
                 rows := [[Int 1; Float (Finite (Z2Qc 14))];
                          [Int 1; Float (Finite (Z2Qc 15))];
                          [Int 2; Float (Finite (Z2Qc 17))];
                          [Int 2; Float (Finite (Z2Qc 18))]] |})
    as (r & out & Hr & Hout & Hcols & Hrows & _).
  - apply (bool_decide_unpack _). vm_compute. exact I.
  - reflexivity.
  - reflexivity.
  - exists r, out. split_and!; [done..|]. rewrite Hrows. vm_compute. reflexivity.
Defined.

(** ** The cache of the Total statistics *)

Section Cache.

Context (heap : gmap nat TraceFile.t).

Lemma check_column_unit column tf (u : ()) :
  _check_column heap column tf = Ok u → _check_column heap column tf = Ok ().
Proof. by destruct u. Qed.

Lemma uncached_checked column tf :
  _check_column heap column tf = Ok () →
  _check_column heap "id" tf = Ok () →
  uncached heap column tf
  = (data_frame ← data_frame_of heap tf; Total.compute data_frame column).
Proof. intros H1 H2. unfold uncached. by rewrite H1, H2. Qed.

Lemma uncached_ok_checks column tf v :
  uncached heap column tf = Ok v →
  _check_column heap column tf = Ok () ∧ _check_column heap "id" tf = Ok ().
Proof.
  unfold uncached. destruct (_check_column heap column tf) as [[]|]; [|done].
  destruct (_check_column heap "id" tf) as [[]|]; done.
Qed.

Lemma get_si_raise_column tf self e :
  _check_column heap (Total._column self) tf = Raise e →
  Total.get_si heap tf self = (Raise e, self).
Proof. intros H. unfold Total.get_si, mbind, stateful_bind, get_state, lift.
  by rewrite H. Qed.

Lemma get_si_raise_id tf self e :
  _check_column heap (Total._column self) tf = Ok () →
  _check_column heap "id" tf = Raise e →
  Total.get_si heap tf self = (Raise e, self).
Proof. intros H1 H2. unfold Total.get_si, mbind, stateful_bind, get_state, lift.
  by rewrite H1, H2. Qed.

(** The trace file is the cached one: the stored value is returned. *)
Lemma get_si_hit tf self :
  _check_column heap (Total._column self) tf = Ok () →
  _check_column heap "id" tf = Ok () →
  Total._trace_file self = Some tf →
  Total.get_si heap tf self = (Ok (Total._value self), self).
Proof.
  intros H1 H2 Htf.
  unfold Total.get_si, mbind, stateful_bind, get_state, lift.
  rewrite H1, H2. rewrite bool_decide_eq_false_2; [done|].
  intros Hne. by apply Hne.
Qed.

(** Another trace file: the value is computed and stored. *)
Lemma get_si_miss tf self :
  _check_column heap (Total._column self) tf = Ok () →
  _check_column heap "id" tf = Ok () →
  Total._trace_file self ≠ Some tf →
  Total.get_si heap tf self
  = match uncached heap (Total._column self) tf with
    | Ok v => (Ok (Some v),
               {| Total._column := Total._column self;
                  Total._value := Some v;
                  Total._trace_file := Some tf |})
    | Raise e => (Raise e, self)
    end.
Proof.
  intros H1 H2 Htf. rewrite uncached_checked by done.
  unfold Total.get_si, mbind, stateful_bind, get_state, lift.
  rewrite H1, H2. rewrite bool_decide_eq_true_2 by done.
  destruct (data_frame_of heap tf) as [df|]; simpl; [|done].
  by destruct (Total.compute df (Total._column self)).
Qed.

Lemma cache_ok_hit tf self :
  cache_ok heap self = true →
  Total._trace_file self = Some tf →
  ∃ v, uncached heap (Total._column self) tf = Ok v
       ∧ Total._value self = Some v.
Proof.
  unfold cache_ok. intros Hok Htf. rewrite Htf in Hok.
  destruct (uncached heap (Total._column self) tf) as [v|]; [|done].
  exists v. split; [done|]. by apply bool_decide_eq_true in Hok.
Qed.

(** With a sound cache, [get_si] returns what the computation without a
    cache returns. *)
Lemma get_si_uncached tf self :
  cache_ok heap self = true →
  (Total.get_si heap tf self).1
  = Some <$> uncached heap (Total._column self) tf.
Proof.
  intros Hok.
  destruct (_check_column heap (Total._column self) tf) as [[]|e] eqn:H1.
  2:{ rewrite (get_si_raise_column _ _ e) by done.
      unfold uncached. by rewrite H1. }
  destruct (_check_column heap "id" tf) as [[]|e] eqn:H2.
  2:{ rewrite (get_si_raise_id _ _ e) by done.
      unfold uncached. by rewrite H1, H2. }
  destruct (decide (Total._trace_file self = Some tf)) as [Heq|Hne].
  - rewrite get_si_hit by done.
    destruct (cache_ok_hit _ _ Hok Heq) as (v & -> & ->). done.
  - rewrite get_si_miss by done.
    by destruct (uncached heap (Total._column self) tf).
Qed.

(** [get_si] keeps the column and the soundness of the cache. *)
Lemma get_si_invariant tf self :
  cache_ok heap self = true →
  cache_ok heap (Total.get_si heap tf self).2 = true
  ∧ Total._column (Total.get_si heap tf self).2 = Total._column self.
Proof.
  intros Hok.
  destruct (_check_column heap (Total._column self) tf) as [[]|e] eqn:H1.
  2:{ by rewrite (get_si_raise_column _ _ e). }
  destruct (_check_column heap "id" tf) as [[]|e] eqn:H2.
  2:{ by rewrite (get_si_raise_id _ _ e). }
  destruct (decide (Total._trace_file self = Some tf)) as [Heq|Hne].
  - by rewrite get_si_hit.
  - rewrite get_si_miss by done.
    destruct (uncached heap (Total._column self) tf) as [v|] eqn:Hu; [|done].
    split; [|done]. unfold cache_ok; simpl. rewrite Hu.
    by apply bool_decide_eq_true_2.
Qed.

(** After a call that returned, the object holds the trace file of the
    call and the value returned. *)
Lemma get_si_holds tf self v self1 :
  Total.get_si heap tf self = (Ok v, self1) →
  Total._trace_file self1 = Some tf
  ∧ Total._value self1 = v
  ∧ Total._column self1 = Total._column self
  ∧ _check_column heap (Total._column self) tf = Ok ()
  ∧ _check_column heap "id" tf = Ok ().
Proof.
  destruct (_check_column heap (Total._column self) tf) as [[]|e] eqn:H1.
  2:{ by rewrite (get_si_raise_column _ _ e). }
  destruct (_check_column heap "id" tf) as [[]|e] eqn:H2.
  2:{ by rewrite (get_si_raise_id _ _ e). }
  destruct (decide (Total._trace_file self = Some tf)) as [Heq|Hne].
  - rewrite get_si_hit by done. by intros [= <- <-].
  - rewrite get_si_miss by done.
    destruct (uncached heap (Total._column self) tf) as [w|]; [|done].
    by intros [= <- <-].
Qed.

End Cache.

(** C2.  On a Total statistic whose cache is sound, as it is from the
    constructor on, [get_si] returns for every trace file what the
    computation without a cache returns, and leaves the cache sound.  After
    a call that returned [v] for the reference [tf]: a second call with
    [tf] returns [v] again and changes nothing, and it does so without
    reading the rows, for it returns [v] in any store of trace files in
    which [tf] has the two columns; a call with another reference computes
    the value anew and stores it with that reference, whether or not the
    data of the two trace files are equal. *)
Theorem Total_get_si_cache heap self :
  cache_ok heap self = true →
  (∀ tf,
     (Total.get_si heap tf self).1
     = Some <$> uncached heap (Total._column self) tf
     ∧ cache_ok heap (Total.get_si heap tf self).2 = true)
  ∧ (∀ tf v self1,
       Total.get_si heap tf self = (Ok v, self1) →
       Total.get_si heap tf self1 = (Ok v, self1)
       ∧ (∀ heap',
            _check_column heap' (Total._column self) tf = Ok () →
            _check_column heap' "id" tf = Ok () →
            Total.get_si heap' tf self1 = (Ok v, self1))
       ∧ (∀ tf',
            tf' ≠ tf →
            Total.get_si heap tf' self1
            = match uncached heap (Total._column self) tf' with
              | Ok v' => (Ok (Some v'),
                          {| Total._column := Total._column self;
                             Total._value := Some v';
                             Total._trace_file := Some tf' |})
              | Raise e => (Raise e, self1)
              end)).
Proof.
  intros Hok. split.
  - intros tf. split; [by apply get_si_uncached|by apply get_si_invariant].
  - intros tf v self1 Hcall.
    destruct (get_si_holds _ _ _ _ _ Hcall) as (Htf & Hv & Hcol & H1 & H2).
    split_and!.
    + rewrite get_si_hit; rewrite ?Hcol; try done. by rewrite Hv.
    + intros heap' H1' H2'.
      rewrite get_si_hit; rewrite ?Hcol; try done. by rewrite Hv.
    + intros tf' Hne.
      destruct (_check_column heap (Total._column self) tf')
        as [[]|e] eqn:H1'.
      2:{ rewrite (get_si_raise_column _ _ _ e) by by rewrite Hcol.
          unfold uncached. by rewrite H1'. }
      destruct (_check_column heap "id" tf') as [[]|e] eqn:H2'.
      2:{ rewrite (get_si_raise_id _ _ _ e) by by rewrite ?Hcol.
          unfold uncached. by rewrite H1', H2'. }
      rewrite get_si_miss; rewrite ?Hcol; try done.
      rewrite Htf. congruence.
Qed.

(** ** Maximum, minimum and sum *)

Section Extrema.

Local Open Scope Qc_scope.

Lemma Qcmax_cases a b :
  (a ≤ b ∧ Qcmax a b = b) ∨ (b ≤ a ∧ Qcmax a b = a).
Proof.
  unfold Qcmax. destruct (a ?= b) eqn:E.
  - right. split; [|done]. apply Qceq_alt in E. subst. apply Qcle_refl.
  - left. split; [|done]. apply Qclt_le_weak. by apply Qclt_alt.
  - right. split; [|done]. apply Qclt_le_weak. by apply (Qcgt_alt a b).
Qed.

Lemma Qcmin_cases a b :
  (a ≤ b ∧ Qcmin a b = a) ∨ (b ≤ a ∧ Qcmin a b = b).
Proof.
  unfold Qcmin. destruct (a ?= b) eqn:E.
  - left. split; [|done]. apply Qceq_alt in E. subst. apply Qcle_refl.
  - left. split; [|done]. apply Qclt_le_weak. by apply Qclt_alt.
  - right. split; [|done]. apply Qclt_le_weak. by apply (Qcgt_alt a b).
Qed.

Lemma greatest_unique l m m' : greatest l m → greatest l m' → m = m'.
Proof. intros [Hm Hb] [Hm' Hb']. apply Qcle_antisym; auto. Qed.

Lemma least_unique l m m' : least l m → least l m' → m = m'.
Proof. intros [Hm Hb] [Hm' Hb']. apply Qcle_antisym; auto. Qed.

Lemma greatest_singleton x : greatest [x] x.
Proof.
  split; [by left|]. intros y ->%list_elem_of_singleton. apply Qcle_refl.
Qed.

Lemma least_singleton x : least [x] x.
Proof.
  split; [by left|]. intros y ->%list_elem_of_singleton. apply Qcle_refl.
Qed.

(** Adding an element to a list with a greatest element. *)
Lemma greatest_cons x l m : greatest l m → greatest (x :: l) (Qcmax x m).
Proof.
  intros [Hm Hb]. destruct (Qcmax_cases x m) as [[Hle ->]|[Hle ->]]; split.
  - by right.
  - intros y [->|Hy]%elem_of_cons; auto.
  - by left.
  - intros y [->|Hy]%elem_of_cons; [apply Qcle_refl|].
    eapply Qcle_trans; eauto.
Qed.

Lemma least_cons x l m : least l m → least (x :: l) (Qcmin x m).
Proof.
  intros [Hm Hb]. destruct (Qcmin_cases x m) as [[Hle ->]|[Hle ->]]; split.
  - by left.
  - intros y [->|Hy]%elem_of_cons; [apply Qcle_refl|].
    eapply Qcle_trans; eauto.
  - by right.
  - intros y [->|Hy]%elem_of_cons; auto.
Qed.

Lemma greatest_snoc x l m : greatest l m → greatest (l ++ [x]) (Qcmax m x).
Proof.
  intros [Hm Hb]. destruct (Qcmax_cases m x) as [[Hle ->]|[Hle ->]]; split.
  - apply elem_of_app. right. by left.
  - intros y [Hy|Hy%list_elem_of_singleton]%elem_of_app; subst;
      [|apply Qcle_refl]. eapply Qcle_trans; eauto.
  - apply elem_of_app. by left.
  - intros y [Hy|Hy%list_elem_of_singleton]%elem_of_app; subst; auto.
Qed.

Lemma least_snoc x l m : least l m → least (l ++ [x]) (Qcmin m x).
Proof.
  intros [Hm Hb]. destruct (Qcmin_cases m x) as [[Hle ->]|[Hle ->]]; split.
  - apply elem_of_app. by left.
  - intros y [Hy|Hy%list_elem_of_singleton]%elem_of_app; subst; auto.
  - apply elem_of_app. right. by left.
  - intros y [Hy|Hy%list_elem_of_singleton]%elem_of_app; subst;
      [|apply Qcle_refl]. eapply Qcle_trans; eauto.
Qed.

Lemma greatest_same_elements l l' m :
  (∀ x, x ∈ l ↔ x ∈ l') → greatest l m → greatest l' m.
Proof. intros H [Hm Hb]. split; [by apply H|]. intros x Hx. by apply Hb, H. Qed.

Lemma least_same_elements l l' m :
  (∀ x, x ∈ l ↔ x ∈ l') → least l m → least l' m.
Proof. intros H [Hm Hb]. split; [by apply H|]. intros x Hx. by apply Hb, H. Qed.

Lemma foldr_greatest l y : greatest (l ++ [y]) (foldr Qcmax y l).
Proof.
  induction l as [|z l IH]; simpl.
  - apply greatest_singleton.
  - by apply greatest_cons.
Qed.

Lemma foldr_least l y : least (l ++ [y]) (foldr Qcmin y l).
Proof.
  induction l as [|z l IH]; simpl.
  - apply least_singleton.
  - by apply least_cons.
Qed.

Lemma foldl_greatest l pre acc :
  greatest pre acc → greatest (pre ++ l) (foldl Qcmax acc l).
Proof.
  revert pre acc. induction l as [|z l IH]; intros pre acc Hacc; simpl.
  - by rewrite app_nil_r.
  - rewrite cons_middle, app_assoc. by apply IH, greatest_snoc.
Qed.

Lemma foldl_least l pre acc :
  least pre acc → least (pre ++ l) (foldl Qcmin acc l).
Proof.
  revert pre acc. induction l as [|z l IH]; intros pre acc Hacc; simpl.
  - by rewrite app_nil_r.
  - rewrite cons_middle, app_assoc. by apply IH, least_snoc.
Qed.

(** [maximum] and [minimum] are the greatest and the least element of a
    list that is not empty. *)
Lemma maximum_greatest x l : greatest (x :: l) (maximum (x :: l)).
Proof.
  unfold maximum. simpl hd.
  eapply greatest_same_elements; [|apply foldr_greatest].
  intros y. rewrite elem_of_app, list_elem_of_singleton, !elem_of_cons. tauto.
Qed.

Lemma minimum_least x l : least (x :: l) (minimum (x :: l)).
Proof.
  unfold minimum. simpl hd.
  eapply least_same_elements; [|apply foldr_least].
  intros y. rewrite elem_of_app, list_elem_of_singleton, !elem_of_cons. tauto.
Qed.

(** [max] and [min] of a series of finite numbers. *)
Lemma reduce_max x l : reduce Qcmax (x :: l) = Finite (maximum (x :: l)).
Proof.
  simpl. f_equal. eapply greatest_unique; [|apply maximum_greatest].
  apply (foldl_greatest l [x]), greatest_singleton.
Qed.

Lemma reduce_min x l : reduce Qcmin (x :: l) = Finite (minimum (x :: l)).
Proof.
  simpl. f_equal. eapply least_unique; [|apply minimum_least].
  apply (foldl_least l [x]), least_singleton.
Qed.

Lemma sum_permutation l l' : l ≡ₚ l' → sum l = sum l'.
Proof.
  induction 1 as [|x l l' _ IH|x y l|l l' l'' _ IH1 _ IH2]; simpl.
  - done.
  - by rewrite IH.
  - ring.
  - congruence.
Qed.

Lemma foldl_sum (w : Z → Qc) l acc :
  foldl (λ a v, a + w v) acc l = acc + sum (w <$> l).
Proof.
  revert acc. induction l as [|v l IH]; intros acc; simpl.
  - ring.
  - rewrite IH. unfold sum. simpl. by rewrite Qcplus_assoc.
Qed.

End Extrema.

(** ** The computation of a Total statistic *)

Section TotalSum.

Local Open Scope Qc_scope.

Lemma Z2Qc_inj a b : Z2Qc a = Z2Qc b → a = b.
Proof.
  unfold Z2Qc. intros H. apply (f_equal this) in H. simpl in H.
  assert (inject_Z a == inject_Z b)%Q as Heq.
  { by rewrite <- (Qred_correct (inject_Z a)), <- (Qred_correct (inject_Z b)), H. }
  by apply inject_Z_injective.
Qed.

Lemma same_value_Int a b : same_value (Int a) (Int b) = bool_decide (a = b).
Proof.
  unfold same_value; simpl. rewrite orb_false_r.
  apply bool_decide_ext. split; [apply Z2Qc_inj | by intros ->].
Qed.

Lemma existsb_same_value_Int a (seen : list Z) :
  existsb (same_value (Int a)) (Int <$> seen) = bool_decide (a ∈ seen).
Proof.
  induction seen as [|b seen IH]; csimpl.
  - done.
  - rewrite same_value_Int, IH.
    repeat case_bool_decide; simpl; try done; exfalso; set_solver.
Qed.

(** The distinct ids of a column of ints. *)
Lemma unique_from_Int (ids seen : list Z) :
  ∃ us, unique_from (Int <$> seen) (Int <$> ids) = Int <$> us
        ∧ NoDup us
        ∧ ∀ v, v ∈ us ↔ v ∈ ids ∧ v ∉ seen.
Proof.
  revert seen. induction ids as [|a ids IH]; intros seen; csimpl.
  - exists []. split_and!; [done|constructor|]. set_solver.
  - rewrite existsb_same_value_Int. case_bool_decide as Ha.
    + destruct (IH seen) as (us & -> & Hnd & Hus).
      exists us. split_and!; [done..|]. intros v. rewrite Hus. set_solver.
    + destruct (IH (a :: seen)) as (us & Hq & Hnd & Hus). csimpl in Hq.
      rewrite Hq. exists (a :: us). split_and!; [done| |].
      * constructor; [|done]. rewrite Hus. set_solver.
      * intros v. rewrite elem_of_cons, Hus.
        destruct (decide (v = a)) as [->|]; set_solver.
Qed.

Lemma unique_Int (ids : list Z) :
  ∃ us, unique (Int <$> ids) = Int <$> us
        ∧ us ≡ₚ elements (list_to_set ids : gset Z).
Proof.
  destruct (unique_from_Int ids []) as (us & Hus & Hnd & Hel).
  exists us. split; [done|].
  apply NoDup_Permutation; [done|apply NoDup_elements|].
  intros v. rewrite Hel, elem_of_elements, elem_of_list_to_set. set_solver.
Qed.

Lemma finite_values_Finite (xs : list Qc) :
  finite_values (Finite <$> xs) = xs.
Proof. induction xs as [|x xs IH]; csimpl; [done|]. by rewrite IH. Qed.

Context (df : DataFrame) (column : string).
Context (Hcolumn : has_column column df = true).
Context (Hid : has_column "id" df = true).

Lemma sample_inv row v x :
  sample df column row = Some (v, x) →
  cell_of df "id" row = Int v
  ∧ to_number (cell_of df column row) = Ok (Finite x).
Proof.
  unfold sample. destruct (cell_of df "id" row); try done.
  destruct (to_number (cell_of df column row)) as [[q|]|]; try done.
  by intros [= <- <-].
Qed.

Lemma id_column_ints rs (l : list (Z * Qc)) :
  Forall2 (λ row p, sample df column row = Some p) rs l →
  cell_of df "id" <$> rs = Int <$> l.*1.
Proof.
  induction 1 as [|row [v x] rs ps Hrow _ IH]; csimpl; [done|].
  apply sample_inv in Hrow as [-> _]. by rewrite IH.
Qed.

(** The values in the rows of one vehicle. *)
Lemma vehicle_values rs (l : list (Z * Qc)) v :
  Forall2 (λ row p, sample df column row = Some p) rs l →
  map_result to_number
    (cell_of df column
       <$> filter (λ row, cell_eqb (cell_of df "id" row) (Int v) = true) rs)
  = Ok (Finite <$> values_of v l).
Proof.
  unfold values_of.
  induction 1 as [|row [w x] rs ps Hrow _ IH]; [done|].
  apply sample_inv in Hrow as [Hv Hx].
  rewrite !filter_cons, Hv. simpl cell_eqb.
  destruct (decide (w = v)) as [->|Hne].
  - rewrite bool_decide_eq_true_2 by done.
    rewrite decide_True by done. rewrite decide_True by done.
    csimpl. rewrite Hx. simpl. by rewrite IH.
  - rewrite bool_decide_eq_false_2 by (by intros ?%Z2Qc_inj).
    rewrite decide_False by done. by rewrite decide_False by done.
Qed.

Lemma values_of_nonempty (l : list (Z * Qc)) v :
  v ∈ l.*1 → values_of v l ≠ [].
Proof.
  unfold values_of. intros ([w x] & Hv & Hin)%list_elem_of_fmap.
  simpl in Hv. subst v. intros Hnil%fmap_nil_inv.
  assert ((w, x) ∈ filter (λ p : Z * Qc, p.1 = w) l) as Hf.
  { by apply list_elem_of_filter. }
  rewrite Hnil in Hf. by apply elem_of_nil in Hf.
Qed.

Context (l : list (Z * Qc)).
Context (Hsamples : samples df column = Some l).

Lemma samples_rows :
  Forall2 (λ row p, sample df column row = Some p) (rows df) l.
Proof. by apply mapM_Some_1. Qed.

(** One pass of the loop adds the maximum minus the minimum of the
    vehicle. *)
Lemma add_vehicle_width a v :
  v ∈ l.*1 →
  Total.add_vehicle df column (Finite a) (Int v)
  = Ok (Finite (a + (maximum (values_of v l) - minimum (values_of v l)))).
Proof.
  intros Hv. unfold Total.add_vehicle.
  rewrite (getitem_has_column "id") by done. simpl.
  assert (getitem
            (getitem_mask df (series_eq (cell_of df "id" <$> rows df) (Int v)))
            column
          = Ok (cell_of df column
                  <$> filter (λ row, cell_eqb (cell_of df "id" row) (Int v)
                                     = true) (rows df))) as ->.
  { rewrite getitem_has_column by done. unfold getitem_mask, series_eq.
    simpl. by rewrite select_fmap_fmap. }
  simpl. unfold series_max, series_min.
  rewrite (vehicle_values _ l) by apply samples_rows. simpl.
  rewrite finite_values_Finite.
  destruct (values_of v l) as [|x xs] eqn:Hxs.
  { by apply values_of_nonempty in Hv. }
  rewrite reduce_max, reduce_min. simpl. do 2 f_equal. ring.
Qed.

Lemma for_each_width us a :
  (∀ v, v ∈ us → v ∈ l.*1) →
  for_each (Total.add_vehicle df column) (Finite a) (Int <$> us)
  = Ok (Finite
          (foldl (λ a v, a + (maximum (values_of v l)
                              - minimum (values_of v l))) a us)).
Proof.
  revert a. induction us as [|v us IH]; intros a Hus; csimpl; [done|].
  rewrite add_vehicle_width by (apply Hus; by left). simpl.
  apply IH. intros w Hw. apply Hus. by right.
Qed.

(** The computation of [get_si] is the sum of the specification. *)
Lemma compute_total : Total.compute df column = Ok (Finite (total l)).
Proof.
  unfold Total.compute. rewrite (getitem_has_column "id") by done. simpl.
  rewrite (id_column_ints _ l) by apply samples_rows.
  destruct (unique_Int l.*1) as (us & -> & Hperm).
  rewrite for_each_width.
  - do 2 f_equal. rewrite foldl_sum, Qcplus_0_l. unfold total.
    apply sum_permutation. by apply fmap_Permutation.
  - intros v Hv. rewrite Hperm in Hv.
    by apply elem_of_elements, elem_of_list_to_set in Hv.
Qed.

End TotalSum.

(** ** Statistics on a store of Total objects *)

Section Statistics.

Context (heap : gmap nat TraceFile.t).

Lemma check_column_present column tf df :
  data_frame_of heap tf = Ok df →
  has_column column df = true →
  _check_column heap column tf = Ok ().
Proof. intros Hdf Hc. unfold _check_column. rewrite Hdf. simpl. by rewrite Hc. Qed.

Lemma check_column_absent column tf df :
  data_frame_of heap tf = Ok df →
  has_column column df = false →
  _check_column heap column tf = Raise (MissingColumn column).
Proof. intros Hdf Hc. unfold _check_column. rewrite Hdf. simpl. by rewrite Hc. Qed.

Lemma uncached_total column tf df l :
  data_frame_of heap tf = Ok df →
  has_column column df = true →
  has_column "id" df = true →
  samples df column = Some l →
  uncached heap column tf = Ok (Finite (total l)).
Proof.
  intros Hdf Hc Hid Hl. unfold uncached.
  rewrite (check_column_present column tf df) by done.
  rewrite (check_column_present "id" tf df) by done.
  rewrite Hdf. simpl. by apply compute_total.
Qed.

Lemma on_object_lookup {A} r (method : stateful Total.t A) store self :
  store !! r = Some self →
  on_object r method store
  = ((method self).1, <[r := (method self).2]> store).
Proof.
  intros Hr. unfold on_object. rewrite Hr. by destruct (method self).
Qed.

Lemma typed_insert store r self self' s :
  store !! r = Some self →
  Total._column self' = Total._column self →
  typed store s → typed (<[r := self']> store) s.
Proof.
  intros Hr Hcol. induction s as [r'|r'|a IHa b IHb|a IHa area|a IHa area|];
    simpl; try tauto.
  - intros (self0 & Hr' & Hc). destruct (decide (r = r')) as [<-|Hne].
    + exists self'. rewrite lookup_insert_eq. split; [done|]. congruence.
    + exists self0. by rewrite lookup_insert_ne.
  - intros (self0 & Hr' & Hc). destruct (decide (r = r')) as [<-|Hne].
    + exists self'. rewrite lookup_insert_eq. split; [done|]. congruence.
    + exists self0. by rewrite lookup_insert_ne.
Qed.

Lemma store_ok_insert store r self' :
  store_ok heap store → cache_ok heap self' = true →
  store_ok heap (<[r := self']> store).
Proof.
  intros Hok Hself r' self0. destruct (decide (r = r')) as [<-|Hne].
  - rewrite lookup_insert_eq. by intros [= <-].
  - rewrite lookup_insert_ne by done. apply Hok.
Qed.

(** A Total statistic on a store with sound caches. *)
Lemma total_get_si r store self tf :
  store_ok heap store →
  store !! r = Some self →
  let out := on_object r (Total.get_si heap tf) store in
  out.1 = Some <$> uncached heap (Total._column self) tf
  ∧ store_ok heap out.2
  ∧ ∀ s, typed store s → typed out.2 s.
Proof.
  intros Hok Hr. simpl. rewrite (on_object_lookup r _ store self) by done.
  simpl. pose proof (Hok _ _ Hr) as Hself.
  destruct (get_si_invariant heap tf self Hself) as [Hok' Hcol].
  split_and!.
  - by apply get_si_uncached.
  - by apply store_ok_insert.
  - intros s. by apply typed_insert with self.
Qed.

Lemma stateful_bind_run {S A B} (m : stateful S A) (k : A → stateful S B) s :
  (m ≫= k) s
  = match m s with
    | (Ok a, s') => k a s'
    | (Raise e, s') => (Raise e, s')
    end.
Proof. done. Qed.

(** With sound caches, [get_si] of any statistic returns the value computed
    without a cache, and the caches stay sound. *)
Lemma get_si_value_si s store tf :
  store_ok heap store →
  typed store s →
  (Statistic.get_si heap s tf store).1 = value_si heap s tf
  ∧ store_ok heap (Statistic.get_si heap s tf store).2
  ∧ ∀ s', typed store s' → typed (Statistic.get_si heap s tf store).2 s'.
Proof.
  revert store.
  induction s as [r|r|a IHa b IHb|a IHa area|a IHa area|];
    intros store Hok Hty; simpl in Hty |- *.
  - destruct Hty as (self & Hr & Hcol).
    destruct (total_get_si r store self tf Hok Hr) as (H1 & H2 & H3).
    rewrite Hcol in H1. done.
  - destruct Hty as (self & Hr & Hcol).
    destruct (total_get_si r store self tf Hok Hr) as (H1 & H2 & H3).
    rewrite Hcol in H1. done.
  - destruct Hty as [Hta Htb]. rewrite stateful_bind_run.
    destruct (IHb store Hok Htb) as (Hb1 & Hb2 & Hb3).
    destruct (Statistic.get_si heap b tf store) as [[d|e] store1];
      simpl in Hb1, Hb2, Hb3; rewrite <- Hb1; simpl; [|done].
    rewrite stateful_bind_run.
    destruct (IHa store1 Hb2 (Hb3 _ Hta)) as (Ha1 & Ha2 & Ha3).
    destruct (Statistic.get_si heap a tf store1) as [[t|e] store2];
      simpl in Ha1, Ha2, Ha3; rewrite <- Ha1; simpl; split_and!; auto.
  - rewrite stateful_bind_run.
    destruct (IHa store Hok Hty) as (Ha1 & Ha2 & Ha3).
    destruct (Statistic.get_si heap a tf store) as [[t|e] store1];
      simpl in Ha1, Ha2, Ha3; rewrite <- Ha1; simpl; split_and!; auto.
  - rewrite stateful_bind_run.
    destruct (IHa store Hok Hty) as (Ha1 & Ha2 & Ha3).
    destruct (Statistic.get_si heap a tf store) as [[t|e] store1];
      simpl in Ha1, Ha2, Ha3; rewrite <- Ha1; simpl; split_and!; auto.
  - done.
Qed.

End Statistics.

Section Claims.

Context (heap : gmap nat TraceFile.t).

Lemma total_column_value_si s column tf :
  total_column s = Some column →
  value_si heap s tf = Some <$> uncached heap column tf.
Proof. destruct s; simpl; try done; by intros [= <-]. Qed.

(** C10.  On a trace file whose data frame has the two columns and no
    rows, [get_si] of a Total statistic returns 0.0. *)
Theorem Total_get_si_no_rows store s column tf df :
  total_column s = Some column →
  typed store s →
  store_ok heap store →
  data_frame_of heap tf = Ok df →
  has_column column df = true →
  has_column "id" df = true →
  rows df = [] →
  (Statistic.get_si heap s tf store).1 = Ok (Some (Finite 0%Qc)).
Proof.
  intros Hs Hty Hok Hdf Hc Hid Hrows.
  destruct (get_si_value_si heap s store tf Hok Hty) as (-> & _ & _).
  rewrite (total_column_value_si s column) by done.
  unfold uncached.
  rewrite (check_column_present heap column tf df) by done.
  rewrite (check_column_present heap "id" tf df) by done.
  rewrite Hdf. simpl. unfold Total.compute.
  rewrite (getitem_has_column "id") by done. by rewrite Hrows.
Qed.


End Claims.

(** ** Tables *)

Section Tables.

Lemma int_is_len_small {A B} (l : list A) (k : list B) i j :
  length l = length k → (length l ≤ 256)%nat →
  int_is (len l i) (len k j) = true.
Proof.
  intros Heq Hle. unfold int_is, len, is_small_int; simpl. rewrite <- Heq.
  replace (-5 <=? Z.of_nat (length l)) with true by (symmetry; apply Z.leb_le; lia).
  replace (Z.of_nat (length l) <=? 256) with true by (symmetry; apply Z.leb_le; lia).
  simpl. by apply bool_decide_eq_true_2.
Qed.

Lemma int_is_len_large {A B} (l : list A) (k : list B) i j :
  (256 < length l)%nat → i ≠ j → int_is (len l i) (len k j) = false.
Proof.
  intros Hlt Hne. unfold int_is, len, is_small_int; simpl.
  replace (Z.of_nat (length l) <=? 256) with false
    by (symmetry; apply Z.leb_gt; lia).
  rewrite andb_false_r. destruct (_ && _); [done|].
  by apply bool_decide_eq_false_2.
Qed.

Lemma int_is_len_differ {A B} (l : list A) (k : list B) i j :
  length l ≠ length k → i ≠ j → int_is (len l i) (len k j) = false.
Proof.
  intros Hne Hij. unfold int_is, len; simpl.
  destruct (is_small_int (Z.of_nat (length l))),
    (is_small_int (Z.of_nat (length k))); try done.
  - apply bool_decide_eq_false_2. lia.
  - by apply bool_decide_eq_false_2.
Qed.

(** [Table] raises the error of unequal lengths exactly when the lengths
    differ or exceed 256. *)
Lemma Table_init_length_error heap statistics trace_files store :
  length statistics ≠ length trace_files ∨ (256 < length statistics)%nat →
  Table.__init__ heap statistics trace_files store
  = (Raise (ValueError table_message), store).
Proof.
  intros H. unfold Table.__init__.
  assert (int_is (len statistics 0%nat) (len trace_files 1%nat) = false) as ->.
  { destruct H; [by apply int_is_len_differ|by apply int_is_len_large]. }
  done.
Qed.

Lemma map_stateful_cons_run {S A B} (f : A → stateful S B) x l s :
  map_stateful f (x :: l) s
  = match f x s with
    | (Ok y, s') =>
        match map_stateful f l s' with
        | (Ok ys, s'') => (Ok (y :: ys), s'')
        | (Raise e, s'') => (Raise e, s'')
        end
    | (Raise e, s') => (Raise e, s')
    end.
Proof. done. Qed.

(** The loop of the constructor visits the statistics and the trace files
    pairwise, in order. *)
Lemma entries_pairwise heap ss tfs pre_s pre_t store :
  length pre_s = length pre_t →
  length ss = length tfs →
  map_stateful (Table.entry heap (pre_s ++ ss) (pre_t ++ tfs))
    (seq (length pre_s) (length ss)) store
  = map_stateful
      (λ '(s, tf), value ← Statistic.get heap s tf;
                   mret (Statistic.get_label s, value, Statistic.get_unit s))
      (zip ss tfs) store.
Proof.
  revert tfs pre_s pre_t store.
  induction ss as [|s ss IH]; intros [|tf tfs] pre_s pre_t store Hpre Hlen;
    try done.
  simpl in Hlen. injection Hlen as Hlen. simpl seq. simpl zip.
  rewrite !map_stateful_cons_run.
  assert (Table.entry heap (pre_s ++ s :: ss) (pre_t ++ tf :: tfs)
            (length pre_s) store
          = (value ← Statistic.get heap s tf;
             mret (Statistic.get_label s, value, Statistic.get_unit s)) store)
    as ->.
  { unfold Table.entry, index.
    rewrite list_lookup_middle by done.
    rewrite (list_lookup_middle pre_t) by done.
    unfold mbind, stateful_bind, lift, mret, stateful_ret.
    by destruct (Statistic.get heap s tf store) as [[value|err] store1]. }
  destruct ((value ← Statistic.get heap s tf;
             mret (Statistic.get_label s, value, Statistic.get_unit s)) store)
    as [[e|err] store1]; [|done].
  specialize (IH tfs (pre_s ++ [s]) (pre_t ++ [tf]) store1).
  rewrite <- !app_assoc in IH. simpl in IH.
  rewrite length_app in IH. simpl in IH.
  replace (length pre_s + 1)%nat with (S (length pre_s)) in IH by lia.
  rewrite IH; [done| |done]. rewrite !length_app. simpl. lia.
Qed.

(** For lists of one length up to 256 the table holds, in order, the
    label, the value of [get] and the unit of each statistic on its trace
    file. *)
Lemma Table_init_pairwise heap statistics trace_files store :
  length statistics = length trace_files →
  (length statistics ≤ 256)%nat →
  Table.__init__ heap statistics trace_files store
  = (entries ← map_stateful
       (λ '(s, tf), value ← Statistic.get heap s tf;
                    mret (Statistic.get_label s, value, Statistic.get_unit s))
       (zip statistics trace_files);
     mret {| Table._data_frame :=
               {| columns := [""; "Value"; "Unit"];
                  rows := (λ '(label, value, unit),
                            [Str label; Table.value_cell value; Str unit])
                          <$> entries |} |}) store.
Proof.
  intros Hlen Hsmall. unfold Table.__init__.
  rewrite int_is_len_small by done. change (negb true) with false. cbv iota.
  rewrite !stateful_bind_run.
  pose proof (entries_pairwise heap statistics trace_files [] [] store
                eq_refl Hlen) as Hentries.
  simpl in Hentries. by rewrite Hentries.
Qed.

(** C9, on lists of the same length 257.  The 257 statistics are
    NumberOfLaneChanges and every trace file is one with the two columns
    of lane changes, so that every [get] would return; the table is not
    constructed, the error of unequal lengths is raised. *)
Theorem Table_init_equal_lengths_raises :
  length (replicate 257 Statistic.NumberOfLaneChanges)
  = length (replicate 257 0%nat)
  ∧ (Statistic.get
       {[ 0%nat := {| TraceFile._data_frame :=
                        Some {| columns := ["fromln"; "tolane"];
                                rows := [[Int 1; Int 2]] |} |} ]}
       Statistic.NumberOfLaneChanges 0%nat ∅).1
    = Ok (Some (Finite 1%Qc))
  ∧ (Table.__init__
       {[ 0%nat := {| TraceFile._data_frame :=
                        Some {| columns := ["fromln"; "tolane"];
                                rows := [[Int 1; Int 2]] |} |} ]}
       (replicate 257 Statistic.NumberOfLaneChanges)
       (replicate 257 0%nat) ∅).1
    = Raise (ValueError table_message).
Proof.
  split_and!.
  - by rewrite !length_replicate.
  - vm_compute. reflexivity.
  - rewrite Table_init_length_error; [done|].
    right. rewrite length_replicate. lia.
Qed.

End Tables.

(** ** The example of two vehicles *)

Section Example.

Lemma store_ok_empty heap : store_ok heap ∅.
Proof. intros r self H. by rewrite lookup_empty in H. Qed.

Lemma example_store_ok : store_ok example_heap example_store.
Proof.
  unfold example_store. apply store_ok_insert; [|reflexivity].
  apply store_ok_insert; [apply store_ok_empty|reflexivity].
Qed.


Lemma example_typed_distance :
  typed example_store (Statistic.TotalDistanceTraveled 1).
Proof. eexists. split; reflexivity. Qed.

End Example.

(** The trace file at the reference 2 has no rows. *)
Lemma Total_get_si_no_rows_witness :
  (Statistic.get_si example_heap (Statistic.TotalDistanceTraveled 1) 2%nat
     example_store).1
  = Ok (Some (Finite 0%Qc)).
Proof.
  apply (Total_get_si_no_rows example_heap example_store
           (Statistic.TotalDistanceTraveled 1) "pos (m)" 2%nat
           {| columns := ["id"; "t (s)"; "pos (m)"]; rows := [] |}
           eq_refl example_typed_distance example_store_ok);
    reflexivity.
Defined.


(** A new TotalTimeSpent, called on the reference 0 and then on the
    reference 1, which holds the same data. *)
Lemma Total_get_si_cache_witness :
  (Total.get_si example_heap 0%nat (Total.__init__ "t (s)")).1
  = Some <$> uncached example_heap "t (s)" 0%nat
  ∧ ∀ v self1,
      Total.get_si example_heap 0%nat (Total.__init__ "t (s)")
      = (Ok v, self1) →
      Total.get_si example_heap 0%nat self1 = (Ok v, self1)
      ∧ Total.get_si example_heap 1%nat self1
        = match uncached example_heap "t (s)" 1%nat with
          | Ok v' => (Ok (Some v'),
                      {| Total._column := "t (s)"; Total._value := Some v';
                         Total._trace_file := Some 1%nat |})
          | Raise e => (Raise e, self1)
          end.
Proof.
  destruct (Total_get_si_cache example_heap (Total.__init__ "t (s)") eq_refl)
    as [Hvalue Hcalls].
  split; [apply Hvalue|]. intros v self1 Hcall.
  destruct (Hcalls 0%nat v self1 Hcall) as (Hagain & _ & Hother).
  split; [exact Hagain|]. by apply (Hother 1%nat).
Defined.

(** * Further properties *)

(** ** Filters *)

Section FilterProperties.

Lemma sublist_select {A} (mask : list bool) (l : list A) :
  sublist (select mask l) l.
Proof.
  revert mask. induction l as [|x l IH]; intros [|b mask]; simpl;
    try apply sublist_nil_l.
  destruct b; [by apply sublist_skip | by apply sublist_cons].
Qed.

Lemma getitem_absent column df :
  has_column column df = false → getitem df column = Raise (KeyError column).
Proof.
  intros H%bool_decide_eq_false. unfold getitem.
  by rewrite column_index_None.
Qed.

Lemma getitem_Ok_has_column column df s :
  getitem df column = Ok s → has_column column df = true.
Proof.
  destruct (has_column column df) eqn:E; [done|].
  by rewrite getitem_absent.
Qed.

Lemma map_result_Forall2 {A B} (f : A → result B) l ys :
  map_result f l = Ok ys → Forall2 (λ x y, f x = Ok y) l ys.
Proof.
  revert ys. induction l as [|x l IH]; simpl; intros ys H.
  - injection H as <-. constructor.
  - destruct (f x) as [y|] eqn:Ex; [|done]. simpl in H.
    destruct (map_result f l) as [ys'|]; [|done]. simpl in H.
    injection H as <-. constructor; auto.
Qed.

Lemma series_cmp_Ok_numeric op s bound mask :
  series_cmp op s bound = Ok mask → forallb is_number s = true.
Proof.
  intros H%map_result_Forall2. induction H as [|c b s mask Hc _ IH]; [done|].
  simpl. rewrite IH, andb_true_r. by destruct c.
Qed.

Lemma numeric_column_of_forallb df column :
  forallb is_number (cell_of df column <$> rows df) = true →
  numeric_column df column = true.
Proof.
  unfold numeric_column. generalize (rows df). intros l.
  induction l as [|r l IH]; simpl; [done|].
  intros [-> H]%andb_true_iff. simpl. auto.
Qed.

(** What [apply] of a range returns on a numeric column. *)
Lemma Range_apply_rows r df :
  has_column (Range._column r) df = true →
  numeric_column df (Range._column r) = true →
  Range.apply r df
  = Ok {| columns := columns df;
          rows := filter (λ row, cell_within (Range._min r) (Range._max r)
                                   (Range._min_inclusive r)
                                   (Range._max_inclusive r)
                                   (cell_of df (Range._column r) row))
                    (rows df) |}.
Proof.
  intros Hcol Hnum. pose proof (numeric_column_forallb _ _ Hnum) as Hall.
  unfold Range.apply. rewrite getitem_has_column by done.
  destruct (Range._min_inclusive r), (Range._max_inclusive r); simpl;
    rewrite !series_cmp_numeric by done; simpl;
    unfold getitem_mask; do 2 f_equal;
    rewrite series_and_fmap, select_fmap_fmap;
    apply filter_iff_elem; intros row Hrow;
    (rewrite <- cell_within_test;
     [done|rewrite forallb_forall in Hall; apply Hall, list_elem_of_In;
           by apply list_elem_of_fmap_2]).
Qed.

(** When [apply] of a range returns, the column is there and numeric. *)
Lemma Range_apply_Ok r df out :
  Range.apply r df = Ok out →
  has_column (Range._column r) df = true
  ∧ numeric_column df (Range._column r) = true.
Proof.
  unfold Range.apply. intros H.
  destruct (getitem df (Range._column r)) as [s|] eqn:Hs.
  2:{ by destruct (Range._min_inclusive r). }
  pose proof (getitem_Ok_has_column _ _ _ Hs) as Hcol. split; [done|].
  rewrite getitem_has_column in Hs by done. injection Hs as <-.
  apply numeric_column_of_forallb.
  destruct (Range._min_inclusive r); simpl in H.
  - destruct (series_cmp fge _ _) as [m|] eqn:Hm; [|done].
    by apply series_cmp_Ok_numeric in Hm.
  - destruct (series_cmp fgt _ _) as [m|] eqn:Hm; [|done].
    by apply series_cmp_Ok_numeric in Hm.
Qed.

Lemma InSet_apply_rows s df :
  has_column (InSet._column s) df = true →
  InSet.apply s df
  = Ok {| columns := columns df;
          rows := filter (λ row, cell_in (InSet._values s)
                                   (cell_of df (InSet._column s) row))
                    (rows df) |}.
Proof.
  intros Hcol. unfold InSet.apply. rewrite getitem_has_column by done.
  simpl. unfold getitem_mask, InSet.isin. do 2 f_equal.
  rewrite select_fmap_fmap. apply list_filter_iff. intros row.
  destruct (cell_of df (InSet._column s) row); simpl; try done.
  apply bool_decide_eq_true.
Qed.

Lemma InSet_apply_Ok s df out :
  InSet.apply s df = Ok out → has_column (InSet._column s) df = true.
Proof.
  unfold InSet.apply. intros H.
  destruct (getitem df (InSet._column s)) as [c|] eqn:Hc; [|done].
  by apply getitem_Ok_has_column in Hc.
Qed.

Lemma numeric_column_sublist df df' column :
  columns df' = columns df →
  sublist (rows df') (rows df) →
  numeric_column df column = true →
  numeric_column df' column = true.
Proof.
  unfold numeric_column, cell_of. intros -> Hsub.
  rewrite !forallb_forall. intros H row Hrow. apply H.
  apply list_elem_of_In. apply list_elem_of_In in Hrow.
  by eapply elem_of_sublist.
Qed.

End FilterProperties.

Section FilterTheorems.

Lemma cell_of_same_columns df df' column row :
  columns df' = columns df → cell_of df' column row = cell_of df column row.
Proof. unfold cell_of. by intros ->. Qed.

Lemma has_column_same_columns df df' column :
  columns df' = columns df → has_column column df' = has_column column df.
Proof. unfold has_column. by intros ->. Qed.

(** [apply] of a range on a data frame with the columns of [df]. *)
Lemma Range_apply_same_columns r df df' :
  columns df' = columns df →
  has_column (Range._column r) df = true →
  numeric_column df' (Range._column r) = true →
  Range.apply r df'
  = Ok {| columns := columns df;
          rows := filter (λ row, cell_within (Range._min r) (Range._max r)
                                   (Range._min_inclusive r)
                                   (Range._max_inclusive r)
                                   (cell_of df (Range._column r) row))
                    (rows df') |}.
Proof.
  intros Hcols Hcol Hnum. rewrite Range_apply_rows; [|by rewrite
    (has_column_same_columns df)|done].
  rewrite Hcols. do 2 f_equal. apply list_filter_iff. intros row.
  by rewrite (cell_of_same_columns df df').
Qed.

Lemma Range_apply_shape r df out :
  Range.apply r df = Ok out →
  columns out = columns df ∧ sublist (rows out) (rows df).
Proof.
  intros H. destruct (Range_apply_Ok _ _ _ H) as [Hcol Hnum].
  rewrite Range_apply_rows in H by done. injection H as <-. simpl.
  split; [done|apply sublist_filter].
Qed.

Lemma InSet_apply_shape s df out :
  InSet.apply s df = Ok out →
  columns out = columns df ∧ sublist (rows out) (rows df).
Proof.
  intros H. pose proof (InSet_apply_Ok _ _ _ H) as Hcol.
  rewrite InSet_apply_rows in H by done. injection H as <-. simpl.
  split; [done|apply sublist_filter].
Qed.

Lemma Area_apply_inv a df out :
  Area.apply a df = Ok out →
  ∃ by_t, Range.apply (Area._t_filter a) df = Ok by_t
          ∧ Range.apply (Area._pos_filter a) by_t = Ok out.
Proof.
  unfold Area.apply. intros H.
  destruct (Range.apply (Area._t_filter a) df) as [by_t|]; [|done]. eauto.
Qed.

Lemma filter_none {A} (P : A → Prop) `{!∀ x, Decision (P x)} (l : list A) :
  (∀ x, x ∈ l → ¬ P x) → filter P l = [].
Proof.
  induction l as [|x l IH]; intros Hno; [done|].
  rewrite filter_cons_False by (apply Hno; by left).
  apply IH. intros y Hy. apply Hno. by right.
Qed.

Lemma filter_twice {A} (P : A → Prop) `{!∀ x, Decision (P x)} (l : list A) :
  filter P (filter P l) = filter P l.
Proof. rewrite list_filter_filter. apply list_filter_iff. tauto. Qed.

(** X1.  A filter that returns keeps the columns and returns a
    subsequence of the rows: it adds no row and reorders none. *)
Theorem Filter_apply_subsequence f df out :
  Filter.apply f df = Ok out →
  columns out = columns df ∧ sublist (rows out) (rows df).
Proof.
  destruct f as [r|a|s]; simpl.
  - apply Range_apply_shape.
  - intros (by_t & Ht & Hp)%Area_apply_inv.
    apply Range_apply_shape in Ht as [Hc1 Hs1].
    apply Range_apply_shape in Hp as [Hc2 Hs2].
    split; [congruence|]. by etrans.
  - apply InSet_apply_shape.
Qed.

Lemma Range_apply_idempotent r df out :
  Range.apply r df = Ok out → Range.apply r out = Ok out.
Proof.
  intros H. destruct (Range_apply_Ok _ _ _ H) as [Hcol Hnum].
  destruct (Range_apply_shape _ _ _ H) as [Hcols Hsub].
  rewrite (Range_apply_same_columns r df out); [|done..|].
  2:{ by eapply numeric_column_sublist. }
  rewrite Range_apply_rows in H by done. injection H as <-. simpl.
  by rewrite filter_twice.
Qed.

(** X2.  Filtering is idempotent: applying a filter to its own result
    returns that result. *)
Theorem Filter_apply_idempotent f df out :
  Filter.apply f df = Ok out → Filter.apply f out = Ok out.
Proof.
  destruct f as [r|a|s]; simpl.
  - apply Range_apply_idempotent.
  - intros (by_t & Ht & Hp)%Area_apply_inv.
    destruct (Range_apply_Ok _ _ _ Ht) as [Hct Hnt].
    destruct (Range_apply_Ok _ _ _ Hp) as [Hcp Hnp].
    destruct (Range_apply_shape _ _ _ Ht) as [Hcols1 Hsub1].
    destruct (Range_apply_shape _ _ _ Hp) as [Hcols2 Hsub2].
    assert (columns out = columns df) as Hcols by congruence.
    rewrite (has_column_same_columns df by_t) in Hcp by done.
    unfold Area.apply.
    rewrite (Range_apply_same_columns _ df out); [|done..|].
    2:{ eapply (numeric_column_sublist df); [done| |done]. by etrans. }
    simpl.
    rewrite (Range_apply_same_columns _ df); [|done..|].
    2:{ eapply (numeric_column_sublist by_t); [simpl; congruence| |done].
        simpl. etrans; [apply sublist_filter|done]. }
    simpl.
    rewrite (Range_apply_same_columns _ df by_t) in Hp by done.
    rewrite Range_apply_rows in Ht by done.
    injection Ht as <-. injection Hp as <-. simpl. do 2 f_equal.
    rewrite !list_filter_filter. apply list_filter_iff. tauto.
  - intros H. pose proof (InSet_apply_Ok _ _ _ H) as Hcol.
    destruct (InSet_apply_shape _ _ _ H) as [Hcols Hsub].
    rewrite InSet_apply_rows by by rewrite (has_column_same_columns df).
    rewrite InSet_apply_rows in H by done. injection H as <-. simpl.
    by rewrite filter_twice.
Qed.

(** X3.  The area filter keeps exactly the rows whose time and position
    both lie in the closed window, and the order in which the two ranges
    are applied does not matter. *)
Theorem Area_apply_exact min_t max_t min_pos max_pos a df :
  Area.__init__ min_t max_t min_pos max_pos = Ok a →
  has_column "t (s)" df = true →
  has_column "pos (m)" df = true →
  numeric_column df "t (s)" = true →
  numeric_column df "pos (m)" = true →
  Area.apply a df
  = Ok {| columns := columns df;
          rows := filter (λ row,
                    cell_within min_t max_t true true (cell_of df "t (s)" row)
                    ∧ cell_within min_pos max_pos true true
                        (cell_of df "pos (m)" row))
                  (rows df) |}
  ∧ (by_pos ← Range.apply (Area._pos_filter a) df;
     Range.apply (Area._t_filter a) by_pos)
    = Area.apply a df.
Proof.
  intros Hinit Ht Hp Hnt Hnp. unfold Area.__init__ in Hinit.
  destruct (fgt min_t max_t) eqn:Egt.
  { rewrite (Range_init_raise "t (s)" min_t max_t true true Egt) in Hinit.
    simpl in Hinit. done. }
  destruct (fgt min_pos max_pos) eqn:Egp.
  { rewrite (Range_init_ok "t (s)" min_t max_t true true Egt) in Hinit.
    rewrite (Range_init_raise "pos (m)" min_pos max_pos true true Egp)
      in Hinit.
    simpl in Hinit. done. }
  rewrite (Range_init_ok "t (s)" min_t max_t true true Egt) in Hinit.
  rewrite (Range_init_ok "pos (m)" min_pos max_pos true true Egp) in Hinit.
  simpl in Hinit.
  injection Hinit as <-. unfold Area.apply. simpl.
  rewrite (Range_apply_rows _ df) by done. simpl.
  rewrite (Range_apply_rows _ df) by done. simpl.
  rewrite (Range_apply_same_columns _ df); [|done..|].
  2:{ eapply (numeric_column_sublist df); [done|apply sublist_filter|done]. }
  rewrite (Range_apply_same_columns _ df); [|done..|].
  2:{ eapply (numeric_column_sublist df); [done|apply sublist_filter|done]. }
  simpl. rewrite !list_filter_filter. split.
  - do 2 f_equal. apply list_filter_iff. tauto.
  - do 2 f_equal. apply list_filter_iff. tauto.
Qed.

(** X4.  [InSet] keeps exactly the rows whose cell in the column is a text
    of the set, in their order; a cell that is a number is never kept. *)
Theorem InSet_apply_exact column values df :
  has_column column df = true →
  ∃ out,
    InSet.apply (InSet.__init__ column values) df = Ok out
    ∧ columns out = columns df
    ∧ rows out = filter (λ row, cell_in values (cell_of df column row))
                   (rows df)
    ∧ ∀ row, row ∈ rows out → ∃ v, cell_of df column row = Str v ∧ v ∈ values.
Proof.
  intros Hcol. eexists. split; [by apply InSet_apply_rows|]. simpl.
  split_and!; try done.
  intros row [Hin _]%list_elem_of_filter.
  destruct (cell_of df column row); simpl in Hin; try done. eauto.
Qed.

(** X5.  A filter applied to a data frame without the column it reads
    raises [KeyError] for that column. *)
Theorem Filter_apply_missing_column f df :
  has_column (first_column f) df = false →
  Filter.apply f df = Raise (KeyError (first_column f)).
Proof.
  intros H%getitem_absent. destruct f as [r|a|s]; simpl in *.
  - unfold Range.apply. rewrite H. by destruct (Range._min_inclusive r).
  - unfold Area.apply, Range.apply. rewrite H.
    by destruct (Range._min_inclusive (Area._t_filter a)).
  - unfold InSet.apply. by rewrite H.
Qed.

(** X6.  A range that no number satisfies keeps no row: a range from a
    value to the same value with a bound excluded, as [Range(column, a, a)]
    is by default, or a range with a NaN bound. *)
Theorem Range_apply_keeps_nothing r df out :
  Range.apply r df = Ok out →
  is_nan (Range._min r) = true ∨ is_nan (Range._max r) = true
  ∨ (Range._min r = Range._max r
     ∧ Range._min_inclusive r && Range._max_inclusive r = false) →
  rows out = [].
Proof.
  intros H Hempty. destruct (Range_apply_Ok _ _ _ H) as [Hcol Hnum].
  rewrite Range_apply_rows in H by done. injection H as <-. simpl.
  apply filter_none. intros row _. unfold cell_within, within.
  destruct (to_number _) as [x|]; [|tauto].
  destruct r as [c a b i j]; simpl in *.
  destruct Hempty as [Hn|[Hn|[-> Hex]]].
  - destruct a; [done|]. destruct i; simpl; tauto.
  - destruct b; [done|]. destruct x, j; simpl; tauto.
  - destruct x as [x|], b as [b|]; destruct i, j; simpl in *; try tauto;
      try done.
    + intros [H1 H2]. exact (Qclt_not_le _ _ H2 H1).
    + intros [H1 H2]. exact (Qclt_not_le _ _ H1 H2).
    + intros [H1 H2]. exact (Qclt_not_le _ _ H1 (Qclt_le_weak _ _ H2)).
Qed.

End FilterTheorems.

(** The types 1 and 2 among the types 1, 2 and 3. *)
Lemma Filter_apply_subsequence_witness :
  ∃ out,
    Filter.apply (Filter.InSet (InSet.__init__ "type" {["1"; "2"]}))
      {| columns := ["id"; "type"];
         rows := [[Int 1; Str "1"]; [Int 2; Str "3"]; [Int 3; Str "2"]] |}
    = Ok out
    ∧ columns out = ["id"; "type"]
    ∧ sublist (rows out)
        [[Int 1; Str "1"]; [Int 2; Str "3"]; [Int 3; Str "2"]].
Proof.
  eexists. split; [vm_compute; reflexivity|].
  apply (Filter_apply_subsequence
           (Filter.InSet (InSet.__init__ "type" {["1"; "2"]}))
           {| columns := ["id"; "type"];
              rows := [[Int 1; Str "1"]; [Int 2; Str "3"];
                       [Int 3; Str "2"]] |}).
  vm_compute. reflexivity.
Defined.

(** The range of times from 1 to 3, 3 excluded, applied twice. *)
Lemma Filter_apply_idempotent_witness :
  ∃ out,
    Filter.apply
      (Filter.Range
         {| Range._column := "t (s)"; Range._min := Finite (Z2Qc 1);
            Range._max := Finite (Z2Qc 3); Range._min_inclusive := true;
            Range._max_inclusive := false |}) two_vehicles = Ok out
    ∧ Filter.apply
        (Filter.Range
           {| Range._column := "t (s)"; Range._min := Finite (Z2Qc 1);
              Range._max := Finite (Z2Qc 3); Range._min_inclusive := true;
              Range._max_inclusive := false |}) out = Ok out.
Proof.
  eexists. split; [vm_compute; reflexivity|].
  apply (Filter_apply_idempotent
           (Filter.Range
              {| Range._column := "t (s)"; Range._min := Finite (Z2Qc 1);
                 Range._max := Finite (Z2Qc 3); Range._min_inclusive := true;
                 Range._max_inclusive := false |}) two_vehicles).
  vm_compute. reflexivity.
Defined.

(** [Area(1, 2, 0, 10)] on the two vehicles keeps the rows of time 1 with
    the positions 10 and 5. *)
Lemma Area_apply_exact_witness :
  ∃ a,
    Area.__init__ (Finite (Z2Qc 1)) (Finite (Z2Qc 2)) (Finite (Z2Qc 0))
      (Finite (Z2Qc 10)) = Ok a
    ∧ Area.apply a two_vehicles
      = Ok {| columns := ["id"; "t (s)"; "pos (m)"];
              rows :=
                [ [Int 1; Float (Finite (Z2Qc 1)); Float (Finite (Z2Qc 10))];
                  [Int 2; Float (Finite (Z2Qc 1)); Float (Finite (Z2Qc 5))] ]
           |}.
Proof.
  eexists. split; [reflexivity|].
  destruct (Area_apply_exact (Finite (Z2Qc 1)) (Finite (Z2Qc 2))
              (Finite (Z2Qc 0)) (Finite (Z2Qc 10)) _ two_vehicles
              eq_refl eq_refl eq_refl eq_refl eq_refl) as [Hrows _].
  rewrite Hrows. vm_compute. reflexivity.
Defined.

(** The types 1 and 2 among the types 1, 2 and 3. *)
Lemma InSet_apply_exact_witness :
  ∃ out,
    InSet.apply (InSet.__init__ "type" {["1"; "2"]})
      {| columns := ["id"; "type"];
         rows := [[Int 1; Str "1"]; [Int 2; Str "3"]; [Int 3; Str "2"]] |}
    = Ok out
    ∧ rows out = [[Int 1; Str "1"]; [Int 3; Str "2"]].
Proof.
  destruct (InSet_apply_exact "type" {["1"; "2"]}
              {| columns := ["id"; "type"];
                 rows := [[Int 1; Str "1"]; [Int 2; Str "3"];
                          [Int 3; Str "2"]] |} eq_refl)
    as (out & Hout & _ & Hrows & _).
  exists out. split; [exact Hout|]. rewrite Hrows. vm_compute. reflexivity.
Defined.

(** The two vehicles have no column [lane]. *)
Lemma Filter_apply_missing_column_witness :
  Filter.apply (Filter.InSet (InSet.__init__ "lane" {["1"]})) two_vehicles
  = Raise (KeyError "lane").
Proof.
  apply (Filter_apply_missing_column
           (Filter.InSet (InSet.__init__ "lane" {["1"]})) two_vehicles).
  reflexivity.
Defined.

(** [Range('t (s)', 2, 2)] with the default inclusivity. *)
Lemma Range_apply_keeps_nothing_witness :
  ∃ r out,
    Range.default_init "t (s)" (Finite (Z2Qc 2)) (Finite (Z2Qc 2)) = Ok r
    ∧ Range.apply r two_vehicles = Ok out
    ∧ rows out = [].
Proof.
  eexists _, _. split; [reflexivity|]. split; [vm_compute; reflexivity|].
  eapply (Range_apply_keeps_nothing
            {| Range._column := "t (s)"; Range._min := Finite (Z2Qc 2);
               Range._max := Finite (Z2Qc 2); Range._min_inclusive := true;
               Range._max_inclusive := false |} two_vehicles).
  - vm_compute. reflexivity.
  - right. right. split; reflexivity.
Defined.

(** * The statistics in binary64 *)

Section Binary64Frames.

Import Binary64.














Lemma existsb_eqb (a : Z) seen :
  existsb (Z.eqb a) seen = bool_decide (a ∈ seen).
Proof.
  induction seen as [|b seen IH]; simpl; [done|].
  rewrite IH. destruct (Z.eqb_spec a b) as [->|Hne]; simpl.
  - symmetry. apply bool_decide_eq_true_2. by left.
  - apply bool_decide_ext. set_solver.
Qed.

(** The ids seen first are the distinct ids. *)
Lemma first_from_ids (ids seen : list Z) :
  NoDup (first_from Z.eqb seen ids)
  ∧ ∀ v, v ∈ first_from Z.eqb seen ids ↔ v ∈ ids ∧ v ∉ seen.
Proof.
  revert seen. induction ids as [|a ids IH]; intros seen; simpl.
  - split; [constructor|]. set_solver.
  - rewrite existsb_eqb. case_bool_decide as Ha.
    + destruct (IH seen) as [Hnd Hel]. split; [done|].
      intros v. rewrite Hel. set_solver.
    + destruct (IH (a :: seen)) as [Hnd Hel]. split.
      * constructor; [|done]. rewrite Hel. set_solver.
      * intros v. rewrite elem_of_cons, Hel.
        destruct (decide (v = a)) as [->|]; set_solver.
Qed.

End Binary64Frames.

Section Binary64Total.

Import Binary64.




Context (heap : gmap nat TraceFile.t).









End Binary64Total.

Section Binary64TraceData.

Import Binary64.

Context (py_float : option string → option float).
Context (py_int : option string → option Z).
Context (infer : list (option string) → column).















End Binary64TraceData.

(** ** The order of the floats *)

Section Binary64Order.

Import Binary64.














End Binary64Order.

(** ** The claims on the statistics *)

Section Binary64Claims.

Import Binary64.

Context (py_float : option string → option float).
Context (py_int : option string → option Z).
Context (infer : list (option string) → column).
Context (heap : gmap nat TraceFile.t).

Lemma bind_ret_run {S A B} (m : stateful S A) (f : A → B) s :
  (x ← m; mret (f x)) s
  = match m s with
    | (Ok x, s') => (Ok (f x), s')
    | (Raise e, s') => (Raise e, s')
    end.
Proof.
  unfold mbind, stateful_bind, mret, stateful_ret.
  by destruct (m s) as [[x|e] s'].
Qed.





Lemma divisor_3600 : PrimFloat.eqb (of_Z 3600) PrimFloat.zero = false.
Proof. reflexivity. Qed.

Lemma divisor_1000 : PrimFloat.eqb (of_Z 1000) PrimFloat.zero = false.
Proof. reflexivity. Qed.

Lemma pack_like a b x : pack a (PyFloat b) x = like a x.
Proof. by destruct a. Qed.

Lemma div_literal a k :
  PrimFloat.eqb k PrimFloat.zero = false →
  div (Some a) (Some (PyFloat k))
  = Ok (Some (like a (PrimFloat.div (to_float a) k))).
Proof.
  intros Hk. unfold div, truediv. simpl. rewrite Hk, andb_false_r. simpl.
  by rewrite pack_like.
Qed.

Lemma times_literal a k :
  times (Some a) (Some (PyFloat k))
  = Ok (Some (like a (PrimFloat.mul (to_float a) k))).
Proof. unfold times, mul. by rewrite pack_like. Qed.

Lemma bind_lift_ret_run {S A B C} (m : stateful S A) (g : A → result B)
    (f : B → C) s :
  (x ← m; y ← lift (g x); mret (f y)) s
  = match m s with
    | (Ok x, s') => (f <$> g x, s')
    | (Raise e, s') => (Raise e, s')
    end.
Proof.
  unfold mbind, stateful_bind, mret, stateful_ret, lift.
  destruct (m s) as [[x|e] s']; [|done]. by destruct (g x).
Qed.

(** C7.  When [get_si] returns a value that is not [None], [get] returns,
    in the same store, that value divided by 3600.0 for TotalTimeSpent
    and by 1000.0 for TotalDistanceTraveled, multiplied by 3.6 for
    MeanSpeed, by 1000.0 for Density and by 3600.0 for Flow, and the
    value itself for NumberOfLaneChanges. *)
Theorem get_in_unit store s tf v store' :
  Statistic.get_si heap s tf store = (Ok v, store') →
  v ≠ Statistic.FloatValue None →
  Statistic.get heap s tf store = (Ok (in_unit s v), store').
Proof.
  intros Hsi Hv.
  destruct s as [r|r|a b|a area|a area|]; unfold Statistic.get;
    unfold Statistic.get_si in Hsi; rewrite bind_ret_run in Hsi;
    rewrite ?bind_lift_ret_run;
    match type of Hsi with
    | context [match ?m with _ => _ end] =>
        destruct m as [[x|e] st] eqn:Hm; [|done]
    end;
    injection Hsi as <- <-.
  1-5: destruct x as [x|]; [|by destruct Hv];
    unfold Statistic.f3600, Statistic.f1000, Statistic.f3_6.
  - by rewrite div_literal by apply divisor_3600.
  - by rewrite div_literal by apply divisor_1000.
  - by rewrite times_literal.
  - by rewrite times_literal.
  - by rewrite times_literal.
  - rewrite bind_ret_run. by rewrite Hm.
Qed.

End Binary64Claims.

Section Binary64Examples.

Import Binary64.



Lemma get_in_unit_witness :
  Statistic.get read_heap (Statistic.TotalTimeSpent 0) 1 new_store
  = (Ok (in_unit (Statistic.TotalTimeSpent 0)
           (Statistic.FloatValue (Some (NpFloat (of_Z 3))))),
     (Statistic.get_si read_heap (Statistic.TotalTimeSpent 0) 1
        new_store).2).
Proof.
  apply (get_in_unit read_heap new_store (Statistic.TotalTimeSpent 0) 1%nat
           (Statistic.FloatValue (Some (NpFloat (of_Z 3))))).
  - vm_compute. reflexivity.
  - discriminate.
Defined.

(** C7, the claim as it was stated.  On the trace file read from
    [short_file], one vehicle from 0 s to 3 s, [get_si] of
    TotalTimeSpent returns 3.0 and [get] returns 3.0 / 3600.0, which is
    not 3.0 * (1.0 / 3600.0). *)
Lemma get_divides :
  made cell_float cell_int as_text short_trace_file
  ∧ (Statistic.get_si read_heap (Statistic.TotalTimeSpent 0) 1 new_store).1
    = Ok (Statistic.FloatValue (Some (NpFloat (of_Z 3))))
  ∧ (Statistic.get read_heap (Statistic.TotalTimeSpent 0) 1 new_store).1
    = Ok (Statistic.FloatValue
            (Some (NpFloat (PrimFloat.div (of_Z 3) (of_Z 3600)))))
  ∧ PrimFloat.eqb (PrimFloat.div (of_Z 3) (of_Z 3600))
      (PrimFloat.mul (of_Z 3) (PrimFloat.div (of_Z 1) (of_Z 3600)))
    = false.
Proof.
  split_and!.
  - apply (made_init _ _ _ short_file ∅). vm_compute. reflexivity.
  - vm_compute. reflexivity.
  - vm_compute. reflexivity.
  - vm_compute. reflexivity.
Qed.

End Binary64Examples.
